(** * cpu_input_boost / in-kernel powerHAL: the boost-state coordinator

    A shallow embedding of the two variants of the frequency-floor driver,

    - [InputBoost]: drivers/cpufreq/cpu_input_boost.c (screen-off bit only),
    - [PowerHal]:   the richer variant with the powerHAL boost bits, the
                    max-boost expiry deadline, the latency-QoS request and
                    the CPU-bandwidth hysteresis hints,

    followed by the properties established about them. *)

From stdpp Require Import base numbers list relations.

Local Open Scope Z_scope.

(** ** Machine integers

    [unsigned long] is 64 bits wide on the arm64 target; sums of jiffies wrap
    around, and [long] is its two's-complement reading. *)

Definition BITS_PER_LONG : Z := 64.

Definition to_ulong (x : Z) : Z := x mod 2 ^ BITS_PER_LONG.

Definition to_long (x : Z) : Z :=
  let y := to_ulong x in
  if y <? 2 ^ (BITS_PER_LONG - 1) then y else y - 2 ^ BITS_PER_LONG.

(** Modelled from the spec: the jiffies comparison macro [time_after(a, b)]
    of include/linux/jiffies.h, which is not among the sources.  It holds when
    [a] is later than [b] ("a longer boost is already in effect"); the kernel
    writes it as the sign of the wrapped difference, [(long)(b - a) < 0]. *)
Definition time_after (a b : Z) : bool := to_long (b - a) <? 0.

(** Atomic bit operations on an [unsigned long] word. *)
Definition test_bit (nr : Z) (word : Z) : bool := Z.testbit word nr.
Definition set_bit (nr : Z) (word : Z) : Z := Z.setbit word nr.
Definition clear_bit (nr : Z) (word : Z) : Z := Z.clearbit word nr.

Global Arguments to_ulong : simpl never.
Global Arguments time_after : simpl never.
Global Arguments test_bit : simpl never.
Global Arguments set_bit : simpl never.
Global Arguments clear_bit : simpl never.

(** ** Values of automatic variables

    A local that is declared without an initialiser holds no defined value
    until it is assigned; arithmetic on it has no defined result either. *)

Inductive val : Type :=
| Vundef
| Vint (n : Z).

Definition vmax (a b : val) : val :=
  match a, b with
  | Vint x, Vint y => Vint (Z.max x y)
  | _, _ => Vundef
  end.

Definition defined (v : val) : bool :=
  match v with Vint _ => true | Vundef => false end.

(** ** What the driver takes from the rest of the kernel

    Constants, masks and helpers that the two files use but do not define. *)

Record kernel : Type := {
  cpu_lp_mask : Z → bool;          (* cpumask_test_cpu(cpu, cpu_lp_mask) *)
  CPUFREQ_ADJUST : Z;
  FB_EARLY_EVENT_BLANK : Z;
  FB_BLANK_UNBLANK : Z;
  PM_QOS_CPU_DMA_LAT_DEFAULT_VALUE : Z;
  NOTIFY_OK : Z;
  msecs_to_jiffies : Z → Z;
}.

(** Module parameters ([module_param], writable at run time). *)
Record params : Type := {
  idle_min_freq_lp : Z;
  boost_min_freq_lp : Z;            (* exported as remove_input_boost_freq_lp *)
  powerhal_boost_duration : Z;      (* richer variant only *)
}.

(** The part of [struct cpufreq_policy] the driver reads and writes. *)
Record cpufreq_policy : Type := {
  cpu : Z;
  cpuinfo_min_freq : Z;
  min : val;
}.

Definition set_min (v : val) (policy : cpufreq_policy) : cpufreq_policy :=
  {| cpu := cpu policy; cpuinfo_min_freq := cpuinfo_min_freq policy; min := v |}.

(** ** Code that is the same, line for line, in both files *)

Section Shared.
Context (K : kernel) (P : params).

Definition get_min_freq (policy : cpufreq_policy) : val :=
  let freq := Vundef in
  let freq :=
    if cpu_lp_mask K (cpu policy) then Vint (boost_min_freq_lp P) else freq in
  vmax freq (Vint (cpuinfo_min_freq policy)).

Definition get_idle_freq (policy : cpufreq_policy) : val :=
  let freq := Vundef in
  let freq :=
    if cpu_lp_mask K (cpu policy) then Vint (idle_min_freq_lp P) else freq in
  vmax freq (Vint (cpuinfo_min_freq policy)).
End Shared.

(** *** The coordinator thread

    [cpu_boost_thread] sleeps in [wait_event] on

      (curr_state = READ_ONCE(b->state)) != old_state ||
      (should_stop = kthread_should_stop())

    Every evaluation of that condition reads the state word and, only when
    the first disjunct is false, the stop flag.  The thread is driven here by
    the list of what successive evaluations observe. *)

Record observation : Type := {
  obs_state : Z;          (* READ_ONCE(b->state) *)
  obs_stop : bool;        (* kthread_should_stop() *)
}.

(** One evaluation of the condition: its truth value and the locals
    [curr_state] and [should_stop] it leaves behind. *)
Definition wait_condition (old_state : Z) (should_stop : bool) (o : observation)
  : bool * Z * bool :=
  let curr_state := obs_state o in
  if negb (curr_state =? old_state) then (true, curr_state, should_stop)
  else
    let should_stop := obs_stop o in
    (should_stop, curr_state, should_stop).

Inductive thread_end : Type :=
| Returned (ret : Z)     (* left the loop and returned *)
| Waiting.               (* asleep on boost_waitq, no evaluation left *)

(** Runs the loop over the observations; yields the number of calls of
    [update_online_cpu_policy], the last [old_state], and how it ended. *)
Fixpoint cpu_boost_thread_loop (obs : list observation) (old_state : Z)
    (updates : nat) : nat * Z * thread_end :=
  match obs with
  | [] => (updates, old_state, Waiting)
  | o :: obs' =>
      let should_stop := false in
      match wait_condition old_state should_stop o with
      | (false, _, _) => cpu_boost_thread_loop obs' old_state updates
      | (true, curr_state, should_stop) =>
          if should_stop then (updates, old_state, Returned 0)
          else
            let old_state := curr_state in
            cpu_boost_thread_loop obs' old_state (S updates)
      end
  end.

Definition cpu_boost_thread (obs : list observation) : nat * Z * thread_end :=
  let old_state := 0 in
  cpu_boost_thread_loop obs old_state 0%nat.

(** *** Registrations made by [cpu_input_boost_init] *)

Inductive resource : Type :=
| PmQosRequest      (* pm_qos_add_request / pm_qos_remove_request *)
| CpuNotifier       (* cpufreq_register_notifier / cpufreq_unregister_notifier *)
| InputHandler      (* input_register_handler / input_unregister_handler *)
| FbNotifier        (* fb_register_client / fb_unregister_client *)
| BoostThread.      (* kthread_run_perf_critical *)

Global Instance resource_eq_dec : EqDecision resource.
Proof. solve_decision. Defined.

Inductive call : Type :=
| Register (r : resource)
| Unregister (r : resource).

(** What the registration calls return: 0 on success, a negative errno
    otherwise; for the thread, [PTR_ERR] of the result when [IS_ERR]. *)
Record init_env : Type := {
  cpufreq_register_notifier_ret : Z;
  input_register_handler_ret : Z;
  fb_register_client_ret : Z;
  kthread_run_err : option Z;
}.

(** The registrations in effect after a sequence of calls, most recent
    first. *)
Fixpoint in_effect_from (acc : list resource) (cs : list call) : list resource :=
  match cs with
  | [] => acc
  | Register r :: cs' => in_effect_from (r :: acc) cs'
  | Unregister r :: cs' =>
      in_effect_from (filter (λ r', r' ≠ r) acc) cs'
  end.

Definition in_effect (cs : list call) : list resource := in_effect_from [] cs.

(** The calls of a trace that register, and those that unregister. *)
Definition registered (cs : list call) : list resource :=
  omap (λ c, match c with Register r => Some r | Unregister _ => None end) cs.

Definition unregistered (cs : list call) : list resource :=
  omap (λ c, match c with Unregister r => Some r | Register _ => None end) cs.

(** ** drivers/cpufreq/cpu_input_boost.c *)

Module InputBoost.

Definition SCREEN_OFF : Z := 0.

(** [struct boost_drv]: the wait queue is kept as the number of [wake_up]
    calls it has received; the two notifier blocks hold no data. *)
Record boost_drv : Type := {
  boost_waitq : nat;
  state : Z;
}.

Definition wake_up (b : boost_drv) : boost_drv :=
  {| boost_waitq := S (boost_waitq b); state := state b |}.

Definition with_state (w : Z) (b : boost_drv) : boost_drv :=
  {| boost_waitq := boost_waitq b; state := w |}.

Section Driver.
Context (K : kernel) (P : params).

Definition cpu_notifier_cb (b : boost_drv) (action : Z)
    (policy : cpufreq_policy) : Z * cpufreq_policy :=
  if negb (action =? CPUFREQ_ADJUST K) then (NOTIFY_OK K, policy)
  else if test_bit SCREEN_OFF (state b) then
    (NOTIFY_OK K, set_min (get_idle_freq K P policy) policy)
  else
    (NOTIFY_OK K, set_min (get_min_freq K P policy) policy).

Definition fb_notifier_cb (b : boost_drv) (action : Z) (blank : Z)
    : Z * boost_drv :=
  if negb (action =? FB_EARLY_EVENT_BLANK K) then (NOTIFY_OK K, b)
  else if blank =? FB_BLANK_UNBLANK K then
    (NOTIFY_OK K, with_state (clear_bit SCREEN_OFF (state b)) b)
  else
    let b := with_state (set_bit SCREEN_OFF (state b)) b in
    (NOTIFY_OK K, wake_up b).

(** The handler fetches the driver from the handle and does nothing
    with it. *)
Definition cpu_input_boost_input_event (b : boost_drv)
    (type code value : Z) : boost_drv :=
  b.
End Driver.

(** The unwinding labels at the end of [cpu_input_boost_init]; each falls
    through into the next. *)
Definition unregister_cpu_notif : list call := [Unregister CpuNotifier].
Definition unregister_handler : list call :=
  Unregister InputHandler :: unregister_cpu_notif.
Definition unregister_fb_notif : list call :=
  Unregister FbNotifier :: unregister_handler.

(** Returns [ret] and the registrations and unregistrations performed, in
    order.  A registration that fails registers nothing. *)
Definition cpu_input_boost_init (e : init_env) : Z * list call :=
  let ret := cpufreq_register_notifier_ret e in
  if negb (ret =? 0) then (ret, [])
  else
    let done := [Register CpuNotifier] in
    let ret := input_register_handler_ret e in
    if negb (ret =? 0) then (ret, done ++ unregister_cpu_notif)
    else
      let done := done ++ [Register InputHandler] in
      let ret := fb_register_client_ret e in
      if negb (ret =? 0) then (ret, done ++ unregister_handler)
      else
        let done := done ++ [Register FbNotifier] in
        match kthread_run_err e with
        | Some err => (err, done ++ unregister_fb_notif)
        | None => (0, done ++ [Register BoostThread])
        end.

End InputBoost.

(** ** The richer variant (in-kernel powerHAL) *)

Module PowerHal.

Definition SCREEN_OFF : Z := 0.
Definition POWERHAL_BOOST : Z := 1.
Definition POWERHAL_MAX_BOOST : Z := 2.

(** A [struct delayed_work]: the jiffies value at which the pending work
    is due, or [None] when it is idle. *)
Definition delayed_work : Type := option Z.

Record boost_drv : Type := {
  powerhal_unboost : delayed_work;
  powerhal_max_unboost : delayed_work;
  boost_waitq : nat;                     (* number of wake_up calls *)
  powerhal_max_boost_expires : Z;
  state : Z;
  pm_qos_req : Z;
}.

(** The sinks behind [set_hyst_trigger_count_val], [set_hist_memory_val],
    [set_hyst_length_val] and [disable_schedtune_boost("top-app", _)]. *)
Record hints : Type := {
  hyst_trigger_count : Z;
  hist_memory : Z;
  hyst_length : Z;
  top_app_boost_disabled : bool;
}.

(** The driver together with the clock and the sinks it talks to. *)
Record sys : Type := {
  drv : boost_drv;
  jiffies : Z;
  bw : hints;
}.

Definition with_drv (b : boost_drv) (s : sys) : sys :=
  {| drv := b; jiffies := jiffies s; bw := bw s |}.
Definition with_bw (h : hints) (s : sys) : sys :=
  {| drv := drv s; jiffies := jiffies s; bw := h |}.
Definition with_jiffies (j : Z) (s : sys) : sys :=
  {| drv := drv s; jiffies := j; bw := bw s |}.

Definition with_state (w : Z) (b : boost_drv) : boost_drv :=
  {| powerhal_unboost := powerhal_unboost b;
     powerhal_max_unboost := powerhal_max_unboost b;
     boost_waitq := boost_waitq b;
     powerhal_max_boost_expires := powerhal_max_boost_expires b;
     state := w;
     pm_qos_req := pm_qos_req b |}.
Definition with_unboost (d : delayed_work) (b : boost_drv) : boost_drv :=
  {| powerhal_unboost := d;
     powerhal_max_unboost := powerhal_max_unboost b;
     boost_waitq := boost_waitq b;
     powerhal_max_boost_expires := powerhal_max_boost_expires b;
     state := state b;
     pm_qos_req := pm_qos_req b |}.
Definition with_max_unboost (d : delayed_work) (b : boost_drv) : boost_drv :=
  {| powerhal_unboost := powerhal_unboost b;
     powerhal_max_unboost := d;
     boost_waitq := boost_waitq b;
     powerhal_max_boost_expires := powerhal_max_boost_expires b;
     state := state b;
     pm_qos_req := pm_qos_req b |}.
Definition with_expires (e : Z) (b : boost_drv) : boost_drv :=
  {| powerhal_unboost := powerhal_unboost b;
     powerhal_max_unboost := powerhal_max_unboost b;
     boost_waitq := boost_waitq b;
     powerhal_max_boost_expires := e;
     state := state b;
     pm_qos_req := pm_qos_req b |}.
Definition pm_qos_update_request (v : Z) (b : boost_drv) : boost_drv :=
  {| powerhal_unboost := powerhal_unboost b;
     powerhal_max_unboost := powerhal_max_unboost b;
     boost_waitq := boost_waitq b;
     powerhal_max_boost_expires := powerhal_max_boost_expires b;
     state := state b;
     pm_qos_req := v |}.
Definition wake_up (b : boost_drv) : boost_drv :=
  {| powerhal_unboost := powerhal_unboost b;
     powerhal_max_unboost := powerhal_max_unboost b;
     boost_waitq := S (boost_waitq b);
     powerhal_max_boost_expires := powerhal_max_boost_expires b;
     state := state b;
     pm_qos_req := pm_qos_req b |}.

Definition set_hyst_trigger_count_val (v : Z) (h : hints) : hints :=
  {| hyst_trigger_count := v; hist_memory := hist_memory h;
     hyst_length := hyst_length h;
     top_app_boost_disabled := top_app_boost_disabled h |}.
Definition set_hist_memory_val (v : Z) (h : hints) : hints :=
  {| hyst_trigger_count := hyst_trigger_count h; hist_memory := v;
     hyst_length := hyst_length h;
     top_app_boost_disabled := top_app_boost_disabled h |}.
Definition set_hyst_length_val (v : Z) (h : hints) : hints :=
  {| hyst_trigger_count := hyst_trigger_count h;
     hist_memory := hist_memory h; hyst_length := v;
     top_app_boost_disabled := top_app_boost_disabled h |}.
Definition disable_schedtune_boost_top_app (disable : bool) (h : hints)
    : hints :=
  {| hyst_trigger_count := hyst_trigger_count h;
     hist_memory := hist_memory h; hyst_length := hyst_length h;
     top_app_boost_disabled := disable |}.

(** Modelled from the spec: [mod_delayed_work] of kernel/workqueue.c, not
    among the sources: "arm replaces any pending deadline for that kind
    (single-slot debounce, not a queue)".  The work becomes due [delay]
    jiffies from now; the result tells whether it was pending already. *)
Definition mod_delayed_work (dwork : delayed_work) (now delay : Z)
    : bool * delayed_work :=
  (bool_decide (is_Some dwork), Some (to_ulong (now + delay))).

Section Driver.
Context (K : kernel) (P : params).

Definition __powerhal_boost_kick (s : sys) : sys :=
  let b := drv s in
  if test_bit SCREEN_OFF (state b) then s
  else if powerhal_boost_duration P =? 0 then s
  else
    let b := with_state (set_bit POWERHAL_BOOST (state b)) b in
    let '(pending, dw) :=
      mod_delayed_work (powerhal_unboost b) (jiffies s)
        (msecs_to_jiffies K (powerhal_boost_duration P)) in
    let b := with_unboost dw b in
    if negb pending then with_drv (wake_up b) s else with_drv b s.

Definition powerhal_boost_kick (s : sys) : sys := __powerhal_boost_kick s.

(** [__powerhal_boost_kick_max] when no other context touches the driver
    while it runs: the compare-and-swap then succeeds at its first
    attempt.  The interleaved form is [km_step] below. *)
Definition __powerhal_boost_kick_max (s : sys) (duration_ms : Z) : sys :=
  let b := drv s in
  let boost_jiffies := msecs_to_jiffies K duration_ms in
  if test_bit SCREEN_OFF (state b) then s
  else
    let curr_expires := powerhal_max_boost_expires b in
    let new_expires := to_ulong (jiffies s + boost_jiffies) in
    if time_after curr_expires new_expires then s
    else
      let b := with_expires new_expires b in
      let b := with_state (set_bit POWERHAL_MAX_BOOST (state b)) b in
      let '(pending, dw) :=
        mod_delayed_work (powerhal_max_unboost b) (jiffies s)
          boost_jiffies in
      let b := with_max_unboost dw b in
      if negb pending then with_drv (wake_up b) s else with_drv b s.

Definition powerhal_boost_kick_max (s : sys) (duration_ms : Z) : sys :=
  __powerhal_boost_kick_max s duration_ms.

Definition powerhal_unboost_worker (b : boost_drv) : boost_drv :=
  wake_up (with_state (clear_bit POWERHAL_BOOST (state b)) b).

Definition powerhal_max_unboost_worker (b : boost_drv) : boost_drv :=
  wake_up (with_state (clear_bit POWERHAL_MAX_BOOST (state b)) b).

Definition cpubw_boost (h : hints) : hints :=
  set_hyst_length_val 0
    (set_hist_memory_val 0 (set_hyst_trigger_count_val 0 h)).

Definition cpubw_unboost (h : hints) : hints :=
  set_hyst_length_val 10
    (set_hist_memory_val 20 (set_hyst_trigger_count_val 3 h)).

Definition cpu_notifier_cb (s : sys) (action : Z)
    (policy : cpufreq_policy) : Z * sys * cpufreq_policy :=
  let b := drv s in
  if negb (action =? CPUFREQ_ADJUST K) then (NOTIFY_OK K, s, policy)
  else if test_bit SCREEN_OFF (state b) then
    let policy := set_min (get_idle_freq K P policy) policy in
    let h := disable_schedtune_boost_top_app true (bw s) in
    let h := cpubw_unboost h in
    (NOTIFY_OK K, with_bw h s, policy)
  else
    let '(b, h) :=
      if test_bit POWERHAL_MAX_BOOST (state b) then
        (pm_qos_update_request 43 b, cpubw_boost (bw s))
      else
        (pm_qos_update_request (PM_QOS_CPU_DMA_LAT_DEFAULT_VALUE K) b,
         bw s) in
    let h :=
      if test_bit POWERHAL_BOOST (state b) then cpubw_boost h
      else cpubw_unboost h in
    let policy := set_min (get_min_freq K P policy) policy in
    (NOTIFY_OK K, with_bw h (with_drv b s), policy).

Definition fb_notifier_cb (s : sys) (action : Z) (blank : Z) : Z * sys :=
  let b := drv s in
  if negb (action =? FB_EARLY_EVENT_BLANK K) then (NOTIFY_OK K, s)
  else if blank =? FB_BLANK_UNBLANK K then
    let h := disable_schedtune_boost_top_app false (bw s) in
    let b := with_state (clear_bit SCREEN_OFF (state b)) b in
    (NOTIFY_OK K, with_bw h (with_drv b s))
  else
    let b := with_state (set_bit SCREEN_OFF (state b)) b in
    (NOTIFY_OK K, with_drv (wake_up b) s).

Definition cpu_input_boost_input_event (s : sys) (type code value : Z)
    : sys :=
  __powerhal_boost_kick s.
End Driver.

(** *** [__powerhal_boost_kick_max], one shared access at a time

    Other contexts may run between any two accesses of a caller to the
    driver or to the clock.  A caller is at one of the following points; the
    locals it has read so far are carried along. *)

Inductive km_pc : Type :=
| KmEntry                                   (* test_bit(SCREEN_OFF, ..) *)
| KmReadExpires                             (* atomic_long_read *)
| KmReadJiffies (curr_expires : Z)          (* jiffies + boost_jiffies *)
| KmCmpxchg (curr_expires new_expires : Z)  (* time_after, atomic_long_cmpxchg *)
| KmSetBit                                  (* set_bit(POWERHAL_MAX_BOOST, ..) *)
| KmModDelayedWork                          (* mod_delayed_work *)
| KmWakeUp                                  (* wake_up *)
| KmReturn.

Record km_thread : Type := {
  km_duration_ms : Z;
  km_at : km_pc;
}.

Definition km_call (duration_ms : Z) : km_thread :=
  {| km_duration_ms := duration_ms; km_at := KmEntry |}.

Section Interleaved.
Context (K : kernel).

Definition km_step (s : sys) (t : km_thread) : sys * km_thread :=
  let b := drv s in
  let boost_jiffies := msecs_to_jiffies K (km_duration_ms t) in
  let goto pc := {| km_duration_ms := km_duration_ms t; km_at := pc |} in
  match km_at t with
  | KmEntry =>
      if test_bit SCREEN_OFF (state b) then (s, goto KmReturn)
      else (s, goto KmReadExpires)
  | KmReadExpires =>
      (s, goto (KmReadJiffies (powerhal_max_boost_expires b)))
  | KmReadJiffies curr_expires =>
      (s, goto (KmCmpxchg curr_expires (to_ulong (jiffies s + boost_jiffies))))
  | KmCmpxchg curr_expires new_expires =>
      if time_after curr_expires new_expires then (s, goto KmReturn)
      else if powerhal_max_boost_expires b =? curr_expires then
        (with_drv (with_expires new_expires b) s, goto KmSetBit)
      else (s, goto KmReadExpires)
  | KmSetBit =>
      (with_drv (with_state (set_bit POWERHAL_MAX_BOOST (state b)) b) s,
       goto KmModDelayedWork)
  | KmModDelayedWork =>
      let '(pending, dw) :=
        mod_delayed_work (powerhal_max_unboost b) (jiffies s) boost_jiffies in
      (with_drv (with_max_unboost dw b) s,
       goto (if negb pending then KmWakeUp else KmReturn))
  | KmWakeUp => (with_drv (wake_up b) s, goto KmReturn)
  | KmReturn => (s, t)
  end.

(** A caller running on its own for [fuel] accesses. *)
Fixpoint km_run (fuel : nat) (s : sys) (t : km_thread) : sys * km_thread :=
  match fuel with
  | O => (s, t)
  | S fuel' => let '(s', t') := km_step s t in km_run fuel' s' t'
  end.

(** The driver and the callers currently inside
    [__powerhal_boost_kick_max]. *)
Definition config : Type := sys * list km_thread.

Definition expires_of (c : config) : Z := powerhal_max_boost_expires (drv c.1).

Inductive step : config → config → Prop :=
| step_access s ts i t s' t' :
    ts !! i = Some t →
    km_step s t = (s', t') →
    step (s, ts) (s', <[i := t']> ts)
| step_call s ts duration_ms :
    step (s, ts) (s, ts ++ [km_call duration_ms])
| step_tick s ts :
    step (s, ts) (with_jiffies (to_ulong (jiffies s + 1)) s, ts)
| step_max_unboost s ts due :
    powerhal_max_unboost (drv s) = Some due →
    step (s, ts)
      (with_drv (powerhal_max_unboost_worker
                   (with_max_unboost None (drv s))) s, ts)
| step_fb s ts action blank :
    step (s, ts) ((fb_notifier_cb K s action blank).2, ts).

(** The deadlines for which comparing jiffies as plain numbers and with
    [time_after] agree: the lower half of the [unsigned long] range. *)
Definition in_window (c : config) : Prop :=
  0 ≤ expires_of c < 2 ^ (BITS_PER_LONG - 1).

Definition windowed_step (c c' : config) : Prop :=
  step c c' ∧ in_window c'.

(** Schedules: one entry per step, so that a particular interleaving can be
    run.  [exec] stops with [None] when an entry cannot be taken or the
    deadline leaves the window. *)
Inductive sched : Type :=
| SAccess (i : nat)           (* caller number i makes its next access *)
| SCall (duration_ms : Z)     (* somebody enters the function *)
| STick
| SMaxUnboost
| SFb (action blank : Z).

Definition sched_step (c : config) (a : sched) : option config :=
  match a with
  | SAccess i =>
      match c.2 !! i with
      | Some t => let '(s', t') := km_step c.1 t in Some (s', <[i := t']> c.2)
      | None => None
      end
  | SCall duration_ms => Some (c.1, c.2 ++ [km_call duration_ms])
  | STick => Some (with_jiffies (to_ulong (jiffies c.1 + 1)) c.1, c.2)
  | SMaxUnboost =>
      match powerhal_max_unboost (drv c.1) with
      | Some _ =>
          Some (with_drv (powerhal_max_unboost_worker
                            (with_max_unboost None (drv c.1))) c.1, c.2)
      | None => None
      end
  | SFb action blank => Some ((fb_notifier_cb K c.1 action blank).2, c.2)
  end.

Fixpoint exec (l : list sched) (c : config) : option config :=
  match l with
  | [] => Some c
  | a :: l' =>
      match sched_step c a with
      | Some c' => if bool_decide (in_window c') then exec l' c' else None
      | None => None
      end
  end.

End Interleaved.

(** *** Timelines

    A sequence of calls into the driver, with the passing of time in
    between; delayed work runs once the clock has reached its due time. *)

Inductive event : Type :=
| Kick                          (* powerhal_boost_kick() *)
| KickMax (duration_ms : Z)     (* powerhal_boost_kick_max(duration_ms) *)
| InputEvent (type code value : Z)
| FbEvent (action blank : Z)
| Recompute (policy : cpufreq_policy)   (* cpufreq runs the policy notifiers *)
| AdvanceTo (t : Z).            (* the clock reaches jiffies value t *)

Section Timeline.
Context (K : kernel) (P : params).

Definition run_unboost (t : Z) (b : boost_drv) : boost_drv :=
  match powerhal_unboost b with
  | Some due =>
      if due <=? t then powerhal_unboost_worker (with_unboost None b) else b
  | None => b
  end.

Definition run_max_unboost (t : Z) (b : boost_drv) : boost_drv :=
  match powerhal_max_unboost b with
  | Some due =>
      if due <=? t then
        powerhal_max_unboost_worker (with_max_unboost None b)
      else b
  | None => b
  end.

Definition apply_event (s : sys) (ev : event) : sys :=
  match ev with
  | Kick => powerhal_boost_kick K P s
  | KickMax duration_ms => powerhal_boost_kick_max K s duration_ms
  | InputEvent type code value =>
      cpu_input_boost_input_event K P s type code value
  | FbEvent action blank => (fb_notifier_cb K s action blank).2
  | Recompute policy =>
      (cpu_notifier_cb K P s (CPUFREQ_ADJUST K) policy).1.2
  | AdvanceTo t =>
      with_jiffies t
        (with_drv (run_max_unboost t (run_unboost t (drv s))) s)
  end.

Definition run (evs : list event) (s : sys) : sys := foldl apply_event s evs.

(** The floor the bridge hands to cpufreq when the policy is recomputed. *)
Definition floor (s : sys) (policy : cpufreq_policy) : val :=
  min (cpu_notifier_cb K P s (CPUFREQ_ADJUST K) policy).2.

End Timeline.

(** *** Initialisation *)

Definition unregister_cpu_notif : list call :=
  [Unregister CpuNotifier; Unregister PmQosRequest].
Definition unregister_handler : list call :=
  Unregister InputHandler :: unregister_cpu_notif.
Definition unregister_fb_notif : list call :=
  Unregister FbNotifier :: unregister_handler.

Definition cpu_input_boost_init (e : init_env) : Z * list call :=
  let done := [Register PmQosRequest] in
  let ret := cpufreq_register_notifier_ret e in
  if negb (ret =? 0) then (ret, done)
  else
    let done := done ++ [Register CpuNotifier] in
    let ret := input_register_handler_ret e in
    if negb (ret =? 0) then (ret, done ++ unregister_cpu_notif)
    else
      let done := done ++ [Register InputHandler] in
      let ret := fb_register_client_ret e in
      if negb (ret =? 0) then (ret, done ++ unregister_handler)
      else
        let done := done ++ [Register FbNotifier] in
        match kthread_run_err e with
        | Some err => (err, done ++ unregister_fb_notif)
        | None => (0, done ++ [Register BoostThread])
        end.

End PowerHal.

(** ** A concrete target

    Four low-power cores (0-3) and four performance cores, a 1000 Hz tick so
    that one jiffy is one millisecond, and the constants of the kernel
    headers. *)

Definition target : kernel := {|
  cpu_lp_mask := λ c, (0 <=? c) && (c <? 4);
  CPUFREQ_ADJUST := 0;
  FB_EARLY_EVENT_BLANK := 16;
  FB_BLANK_UNBLANK := 0;
  PM_QOS_CPU_DMA_LAT_DEFAULT_VALUE := 2000000000;
  NOTIFY_OK := 1;
  msecs_to_jiffies := λ m, m;
|}.

Definition FB_BLANK_POWERDOWN : Z := 4.
Definition EINVAL : Z := 22.

(** Frequencies in kHz: idle floor 300 MHz, base-boost floor 768 MHz; input
    boosts last 500 ms. *)
Definition tunables : params := {|
  idle_min_freq_lp := 300000;
  boost_min_freq_lp := 768000;
  powerhal_boost_duration := 500;
|}.

Definition little_policy : cpufreq_policy :=
  {| cpu := 0; cpuinfo_min_freq := 300000; min := Vint 300000 |}.

Definition big_policy : cpufreq_policy :=
  {| cpu := 4; cpuinfo_min_freq := 300000; min := Vint 300000 |}.

(** The driver as [cpu_input_boost_init] leaves it, at clock value 0. *)
Definition boot : PowerHal.sys := {|
  PowerHal.drv := {|
    PowerHal.powerhal_unboost := None;
    PowerHal.powerhal_max_unboost := None;
    PowerHal.boost_waitq := 0%nat;
    PowerHal.powerhal_max_boost_expires := 0;
    PowerHal.state := 0;
    PowerHal.pm_qos_req := PM_QOS_CPU_DMA_LAT_DEFAULT_VALUE target |};
  PowerHal.jiffies := 0;
  PowerHal.bw := {|
    PowerHal.hyst_trigger_count := 3;
    PowerHal.hist_memory := 20;
    PowerHal.hyst_length := 10;
    PowerHal.top_app_boost_disabled := false |};
|}.

Definition base_boot : InputBoost.boost_drv :=
  {| InputBoost.boost_waitq := 0%nat; InputBoost.state := 0 |}.

(** Two callers racing: [kick_max(1000)] (caller 0) and [kick_max(200)]
    (caller 1) both read the deadline 0; caller 1 swaps first, caller 0 fails
    its compare-and-swap, retries and extends 200 to 1000. *)
Definition racing : list PowerHal.sched :=
  PowerHal.SCall 1000 :: PowerHal.SCall 200
  :: map PowerHal.SAccess [1; 1; 1; 0; 0; 0; 1; 0; 0; 0; 0; 1; 1; 0; 0; 0]%nat.

(** ** Connecting to an input device

    [cpu_input_boost_input_connect] and [cpu_input_boost_input_disconnect]
    have the same text in both files.  They are followed through what they
    do to the handle. *)

Inductive handle_op : Type :=
| HAlloc          (* kzalloc succeeded *)
| HRegister       (* input_register_handle succeeded *)
| HOpen           (* input_open_device succeeded *)
| HClose          (* input_close_device *)
| HUnregister     (* input_unregister_handle *)
| HFree.          (* kfree *)

(** What the allocator and the input core answer; [ENOMEM] is the errno
    constant of the kernel headers. *)
Record connect_env : Type := {
  kzalloc_fails : bool;
  input_register_handle_ret : Z;
  input_open_device_ret : Z;
  ENOMEM : Z;
}.

(** The labels at the end of [cpu_input_boost_input_connect]. *)
Definition free_handle : list handle_op := [HFree].
Definition unregister_handle : list handle_op := HUnregister :: free_handle.

Definition cpu_input_boost_input_connect (e : connect_env)
    : Z * list handle_op :=
  if kzalloc_fails e then (- ENOMEM e, [])
  else
    let done := [HAlloc] in
    let ret := input_register_handle_ret e in
    if negb (ret =? 0) then (ret, done ++ free_handle)
    else
      let done := done ++ [HRegister] in
      let ret := input_open_device_ret e in
      if negb (ret =? 0) then (ret, done ++ unregister_handle)
      else (0, done ++ [HOpen]).

Definition cpu_input_boost_input_disconnect : list handle_op :=
  [HClose; HUnregister; HFree].

(** The life of a handle: allocated, registered with the input core, open.
    [handle_step] is [None] when an operation comes out of order: opening
    what is not registered, unregistering what is still open, freeing what
    is still registered or freeing twice. *)
Record handle_state : Type := {
  allocated : bool;
  registered_with_core : bool;
  opened : bool;
}.

Definition no_handle : handle_state :=
  {| allocated := false; registered_with_core := false; opened := false |}.

Definition handle_step (h : handle_state) (op : handle_op)
    : option handle_state :=
  match op, h with
  | HAlloc, {| allocated := false |} =>
      Some {| allocated := true; registered_with_core := false;
              opened := false |}
  | HRegister, {| allocated := true; registered_with_core := false |} =>
      Some {| allocated := true; registered_with_core := true;
              opened := false |}
  | HOpen, {| registered_with_core := true; opened := false |} =>
      Some {| allocated := true; registered_with_core := true;
              opened := true |}
  | HClose, {| opened := true |} =>
      Some {| allocated := true; registered_with_core := true;
              opened := false |}
  | HUnregister, {| registered_with_core := true; opened := false |} =>
      Some {| allocated := true; registered_with_core := false;
              opened := false |}
  | HFree, {| allocated := true; registered_with_core := false |} =>
      Some no_handle
  | _, _ => None
  end.

Definition handle_after (ops : list handle_op) (h : handle_state)
    : option handle_state :=
  foldl (λ oh op, oh ≫= λ h, handle_step h op) (Some h) ops.

(** ** Vocabulary for the properties *)

(** How often a sequence of state words changes value, starting from
    [old]. *)
Definition changes (old : Z) (states : list Z) : nat :=
  length (filter (λ p, p.1 ≠ p.2) (zip (old :: states) states)).

(** Bits and timers go together: a boost bit is set exactly while its
    delayed work is pending, and the pending max-unboost work is due at the
    deadline. *)
Definition timers_match (b : PowerHal.boost_drv) : Prop :=
  test_bit PowerHal.POWERHAL_BOOST (PowerHal.state b)
    = bool_decide (is_Some (PowerHal.powerhal_unboost b))
  ∧ test_bit PowerHal.POWERHAL_MAX_BOOST (PowerHal.state b)
    = bool_decide (is_Some (PowerHal.powerhal_max_unboost b))
  ∧ (∀ due, PowerHal.powerhal_max_unboost b = Some due →
            due = PowerHal.powerhal_max_boost_expires b).

(** * Properties *)

(** ** Machine integers and bits *)

Lemma to_ulong_small (x : Z) : 0 ≤ x < 2 ^ BITS_PER_LONG → to_ulong x = x.
Proof. intros Hx. unfold to_ulong. by apply Z.mod_small. Qed.

Lemma to_ulong_range (x : Z) : 0 ≤ to_ulong x < 2 ^ BITS_PER_LONG.
Proof. unfold to_ulong. apply Z.mod_pos_bound. by compute. Qed.

(** In the lower half of the range [time_after] is the plain order. *)
Lemma time_after_window (a b : Z) :
  0 ≤ a < 2 ^ (BITS_PER_LONG - 1) →
  0 ≤ b < 2 ^ (BITS_PER_LONG - 1) →
  time_after a b = bool_decide (b < a).
Proof.
  unfold time_after, to_long, to_ulong, BITS_PER_LONG.
  change (2 ^ (64 - 1)) with 9223372036854775808.
  change (2 ^ 64) with 18446744073709551616.
  intros Ha Hb.
  destruct (decide (b < a)) as [Hlt | Hge].
  - rewrite bool_decide_eq_true_2 by done.
    replace ((b - a) mod 18446744073709551616)
      with (b - a + 18446744073709551616).
    + destruct (Z.ltb_spec (b - a + 18446744073709551616) 9223372036854775808);
        apply Z.ltb_lt; lia.
    + apply Z.mod_unique with (q := -1); lia.
  - rewrite bool_decide_eq_false_2 by done.
    rewrite Z.mod_small by lia.
    destruct (Z.ltb_spec (b - a) 9223372036854775808); apply Z.ltb_ge; lia.
Qed.

Lemma time_after_irrefl (a : Z) : time_after a a = false.
Proof. unfold time_after. by rewrite Z.sub_diag. Qed.

Lemma test_set_bit_same (nr w : Z) : 0 ≤ nr → test_bit nr (set_bit nr w) = true.
Proof. intros Hnr. unfold test_bit, set_bit. by apply Z.setbit_eq. Qed.

Lemma test_set_bit_other (nr nr' w : Z) :
  0 ≤ nr → nr ≠ nr' → test_bit nr' (set_bit nr w) = test_bit nr' w.
Proof. intros Hnr Hne. unfold test_bit, set_bit. by apply Z.setbit_neq. Qed.

Lemma test_clear_bit_same (nr w : Z) : test_bit nr (clear_bit nr w) = false.
Proof. unfold test_bit, clear_bit. apply Z.clearbit_eq. Qed.

Lemma test_clear_bit_other (nr nr' w : Z) :
  nr ≠ nr' → test_bit nr' (clear_bit nr w) = test_bit nr' w.
Proof. intros Hne. unfold test_bit, clear_bit. by apply Z.clearbit_neq. Qed.

(** ** The max-boost deadline *)

Section KickMax.
Import PowerHal.
Context (K : kernel).

Local Abbreviation expires s := (powerhal_max_boost_expires (drv s)).

(** No access of a caller moves the deadline backwards in jiffies order. *)
Lemma km_step_time_order (s s' : sys) (t t' : km_thread) :
  km_step K s t = (s', t') → time_after (expires s) (expires s') = false.
Proof.
  unfold km_step. intros Hstep.
  destruct (km_at t) as [| |curr|curr new| | | |];
    repeat case_match; simplify_eq/=; auto using time_after_irrefl.
  (* the compare-and-swap went through *)
  match goal with H : (_ =? _) = true |- _ => apply Z.eqb_eq in H; rewrite H end.
  done.
Qed.

Lemma step_time_order (c c' : config) :
  step K c c' → time_after (expires_of c) (expires_of c') = false.
Proof.
  unfold expires_of.
  destruct 1 as [s ts i t s' t' _ Hstep| | | |s ts action blank]; simpl;
    eauto using km_step_time_order, time_after_irrefl.
  unfold fb_notifier_cb. repeat case_match; simpl; apply time_after_irrefl.
Qed.

Lemma step_monotone (c c' : config) :
  in_window c → in_window c' → step K c c' → expires_of c ≤ expires_of c'.
Proof.
  intros Hc Hc' Hstep. apply step_time_order in Hstep.
  rewrite time_after_window in Hstep by done.
  apply bool_decide_eq_false in Hstep. lia.
Qed.

Lemma deadline_monotone (c c' : config) :
  in_window c → rtc (windowed_step K) c c' → expires_of c ≤ expires_of c'.
Proof.
  intros Hc Hrun. induction Hrun as [c | c c1 c' [Hstep Hc1] _ IH].
  - done.
  - etrans; [by apply step_monotone | by apply IH].
Qed.

(** A caller that nobody interrupts is through after seven accesses, with
    the effect of [__powerhal_boost_kick_max]. *)
Lemma km_run_alone (s : sys) (duration_ms : Z) :
  (km_run K 7 s (km_call duration_ms)).1
    = __powerhal_boost_kick_max K s duration_ms
  ∧ km_at (km_run K 7 s (km_call duration_ms)).2 = KmReturn.
Proof.
  unfold __powerhal_boost_kick_max, km_call. cbn.
  destruct (test_bit SCREEN_OFF (state (drv s))) eqn:Hoff; cbn; [done |].
  destruct (time_after _ _) eqn:Hafter; cbn; [done |].
  rewrite Z.eqb_refl. cbn.
  destruct (powerhal_max_unboost (drv s)); cbn; done.
Qed.

(** What one uninterrupted call does, in jiffies order and without any
    assumption on the range of the clock. *)
Lemma kick_max_in_jiffies_order (s : sys) (duration_ms : Z) :
  let boost_jiffies := msecs_to_jiffies K duration_ms in
  let new_expires := to_ulong (jiffies s + boost_jiffies) in
  let s' := __powerhal_boost_kick_max K s duration_ms in
  test_bit SCREEN_OFF (state (drv s)) = false →
  (time_after (expires s) new_expires = true → s' = s)
  ∧ (time_after (expires s) new_expires = false →
       expires s' = new_expires
       ∧ test_bit POWERHAL_MAX_BOOST (state (drv s')) = true
       ∧ powerhal_max_unboost (drv s') = Some new_expires).
Proof.
  intros bj new s' Hoff. subst s'. unfold __powerhal_boost_kick_max.
  fold bj. fold new. rewrite Hoff.
  split; intros ->; [done |].
  unfold mod_delayed_work. fold new. cbn.
  destruct (negb _); cbn; (split_and!; [done | | done]);
    by apply test_set_bit_same.
Qed.

(** The same within the window, where jiffies compare as numbers. *)
Lemma kick_max_sequential (s : sys) (duration_ms : Z) :
  let boost_jiffies := msecs_to_jiffies K duration_ms in
  let s' := __powerhal_boost_kick_max K s duration_ms in
  test_bit SCREEN_OFF (state (drv s)) = false →
  0 ≤ expires s < 2 ^ (BITS_PER_LONG - 1) →
  0 ≤ jiffies s + boost_jiffies < 2 ^ (BITS_PER_LONG - 1) →
  expires s' = Z.max (expires s) (jiffies s + boost_jiffies)
  ∧ (expires s ≤ jiffies s + boost_jiffies →
       test_bit POWERHAL_MAX_BOOST (state (drv s')) = true
       ∧ powerhal_max_unboost (drv s') = Some (jiffies s + boost_jiffies))
  ∧ (jiffies s + boost_jiffies < expires s → s' = s).
Proof.
  intros bj s' Hoff Hexp Hnew. subst s'. unfold __powerhal_boost_kick_max.
  fold bj. rewrite Hoff.
  assert (to_ulong (jiffies s + bj) = jiffies s + bj) as ->.
  { apply to_ulong_small. unfold BITS_PER_LONG in *.
    change (2 ^ (64 - 1)) with 9223372036854775808 in *.
    change (2 ^ 64) with 18446744073709551616. lia. }
  rewrite time_after_window by done.
  case_bool_decide as Hlt.
  - split_and!; [lia | lia | done].
  - unfold mod_delayed_work.
    assert (to_ulong (jiffies s + bj) = jiffies s + bj) as ->.
    { apply to_ulong_small. unfold BITS_PER_LONG in *.
      change (2 ^ (64 - 1)) with 9223372036854775808 in *.
      change (2 ^ 64) with 18446744073709551616. lia. }
    cbn.
    split_and!.
    + destruct (negb _); simpl; lia.
    + intros _. destruct (negb _); cbn;
        (split; [by apply test_set_bit_same | done]).
    + lia.
Qed.

End KickMax.

Section Schedules.
Import PowerHal.
Context (K : kernel).

Lemma sched_step_sound (c c' : config) (a : sched) :
  sched_step K c a = Some c' → step K c c'.
Proof.
  destruct c as [s ts]. destruct a as [i|d| | |action blank]; simpl.
  - destruct (ts !! i) as [t|] eqn:Hi; [|done].
    destruct (km_step K s t) as [s' t'] eqn:Hstep. intros [= <-].
    by eapply step_access.
  - intros [= <-]. constructor.
  - intros [= <-]. constructor.
  - destruct (powerhal_max_unboost (drv s)) as [due|] eqn:Hdue; [|done].
    intros [= <-]. by eapply step_max_unboost.
  - intros [= <-]. constructor.
Qed.

Lemma exec_sound (l : list sched) (c c' : config) :
  exec K l c = Some c' → rtc (windowed_step K) c c'.
Proof.
  revert c. induction l as [|a l IH]; intros c; simpl.
  - intros [= <-]. done.
  - destruct (sched_step K c a) as [c1|] eqn:Hstep; [|done].
    case_bool_decide as Hwin; [|done]. intros Hrest.
    eapply rtc_l; [|by apply IH].
    split; [by eapply sched_step_sound | done].
Qed.

End Schedules.

Section KickMaxClaim.
Import PowerHal.

Local Abbreviation expires s := (powerhal_max_boost_expires (drv s)).
Local Abbreviation max_boosted s :=
  (test_bit POWERHAL_MAX_BOOST (state (drv s))).

(** Scenario B: with [kick_max(1000)] at 0 and [kick_max(200)] at 100,
    max-boost is set at any later time before 1000 and clear from then on. *)
Lemma scenario_b (t : Z) :
  100 ≤ t →
  max_boosted
    (run target tunables
       [KickMax 1000; AdvanceTo 100; KickMax 200; AdvanceTo t] boot)
  = bool_decide (t < 1000).
Proof.
  intros Ht.
  change (run target tunables
            [KickMax 1000; AdvanceTo 100; KickMax 200; AdvanceTo t] boot)
    with (apply_event target tunables
            (run target tunables
               [KickMax 1000; AdvanceTo 100; KickMax 200] boot)
            (AdvanceTo t)).
  set (s := run _ _ _ _).
  assert (drv s = {|
    powerhal_unboost := None; powerhal_max_unboost := Some 1000;
    boost_waitq := 1%nat; powerhal_max_boost_expires := 1000;
    state := 4; pm_qos_req := 2000000000 |}) as Hs by (by vm_compute).
  unfold apply_event, with_jiffies, with_drv. cbn [drv].
  rewrite Hs. unfold run_unboost, run_max_unboost. cbn.
  destruct (Z.leb_spec 1000 t); cbn.
  - rewrite bool_decide_eq_false_2 by lia. done.
  - rewrite bool_decide_eq_true_2 by lia. done.
Qed.

(** C1, the claim as written fails on a tie: a call whose proposed deadline
    equals the current one leaves the deadline where it was and still sets
    max-boost and arms the timer.  Here the boost of [kick_max(1000)] has run
    out at 1000 and [kick_max(0)] arrives at that very moment. *)
Lemma kick_max_tie_still_arms :
  let s := run target tunables [KickMax 1000; AdvanceTo 1000] boot in
  let s' := powerhal_boost_kick_max target s 0 in
  test_bit SCREEN_OFF (state (drv s)) = false
  ∧ max_boosted s = false ∧ powerhal_max_unboost (drv s) = None
  ∧ max_boosted s' = true ∧ powerhal_max_unboost (drv s') = Some 1000
  ∧ ¬ (expires s < expires s').
Proof. vm_compute. split_and!; try done. Qed.

(** C1 (amended): a caller left alone returns after at most seven accesses
    with the effect of the sequential function; with screen-off clear and no
    wrap-around the deadline becomes max(current, now + duration); max-boost
    is set and the timer armed for the duration whenever the proposed
    deadline is not earlier than the current one (a tie included), and the
    driver is left exactly as it was when a longer boost is in effect, which
    in jiffies order holds without any assumption on the clock; no step of
    any interleaving of callers, clock ticks, timer expiry and display
    events moves the deadline backwards, so inside the window it never
    decreases; in scenario B max-boost clears at 1000. *)
Theorem kick_max_deadline (K : kernel) :
  (∀ s duration_ms,
     (km_run K 7 s (km_call duration_ms)).1
       = __powerhal_boost_kick_max K s duration_ms
     ∧ km_at (km_run K 7 s (km_call duration_ms)).2 = KmReturn)
  ∧ (∀ s duration_ms,
       let boost_jiffies := msecs_to_jiffies K duration_ms in
       let s' := __powerhal_boost_kick_max K s duration_ms in
       test_bit SCREEN_OFF (state (drv s)) = false →
       0 ≤ expires s < 2 ^ (BITS_PER_LONG - 1) →
       0 ≤ jiffies s + boost_jiffies < 2 ^ (BITS_PER_LONG - 1) →
       expires s' = Z.max (expires s) (jiffies s + boost_jiffies)
       ∧ (expires s ≤ jiffies s + boost_jiffies →
            max_boosted s' = true
            ∧ powerhal_max_unboost (drv s')
                = Some (jiffies s + boost_jiffies))
       ∧ (jiffies s + boost_jiffies < expires s → s' = s))
  ∧ (∀ s duration_ms,
       let new_expires :=
         to_ulong (jiffies s + msecs_to_jiffies K duration_ms) in
       let s' := __powerhal_boost_kick_max K s duration_ms in
       test_bit SCREEN_OFF (state (drv s)) = false →
       (time_after (expires s) new_expires = true → s' = s)
       ∧ (time_after (expires s) new_expires = false →
            expires s' = new_expires
            ∧ max_boosted s' = true
            ∧ powerhal_max_unboost (drv s') = Some new_expires))
  ∧ (∀ c c', step K c c' →
       time_after (expires_of c) (expires_of c') = false)
  ∧ (∀ c c', in_window c → rtc (windowed_step K) c c' →
       expires_of c ≤ expires_of c')
  ∧ (∀ t, 100 ≤ t →
       max_boosted
         (run target tunables
            [KickMax 1000; AdvanceTo 100; KickMax 200; AdvanceTo t] boot)
       = bool_decide (t < 1000)).
Proof.
  split_and!.
  - apply km_run_alone.
  - apply kick_max_sequential.
  - apply kick_max_in_jiffies_order.
  - apply step_time_order.
  - apply deadline_monotone.
  - apply scenario_b.
Qed.

Lemma kick_max_deadline_witness :
  let s := run target tunables [KickMax 1000; AdvanceTo 100] boot in
  (expires (__powerhal_boost_kick_max target s 200) = Z.max 1000 300
   ∧ __powerhal_boost_kick_max target s 200 = s)
  ∧ from_option (λ c', expires_of (boot, []) ≤ expires_of c') False
      (exec target racing (boot, []))
  ∧ max_boosted
      (run target tunables
         [KickMax 1000; AdvanceTo 100; KickMax 200; AdvanceTo 300] boot)
    = true.
Proof.
  intros s.
  destruct (kick_max_deadline target) as (_ & Hseq & _ & _ & Hmono & Hb).
  split; [|split].
  - assert (0 ≤ expires s < 2 ^ (BITS_PER_LONG - 1)) as Hexp
      by (vm_compute; split; [discriminate | reflexivity]).
    assert (0 ≤ jiffies s + msecs_to_jiffies target 200
              < 2 ^ (BITS_PER_LONG - 1)) as Hnew
      by (vm_compute; split; [discriminate | reflexivity]).
    destruct (Hseq s 200 eq_refl Hexp Hnew) as (Hmax & _ & Hskip).
    split; [exact Hmax | apply Hskip; vm_compute; reflexivity].
  - destruct (exec target racing (boot, [])) as [c'|] eqn:Hexec.
    + apply Hmono; [vm_compute; split; [discriminate | reflexivity] |].
      by eapply exec_sound.
    + vm_compute in Hexec. discriminate.
  - rewrite (Hb 300) by lia. reflexivity.
Defined.

End KickMaxClaim.

(** ** The policy-notifier bridge *)

Section Bridge.
Import PowerHal.
Context (K : kernel) (P : params).

Local Abbreviation screen_off s := (test_bit SCREEN_OFF (state (drv s))).
Local Abbreviation boosted s := (test_bit POWERHAL_BOOST (state (drv s))).
Local Abbreviation max_boosted s :=
  (test_bit POWERHAL_MAX_BOOST (state (drv s))).


Lemma get_min_freq_lp (policy : cpufreq_policy) :
  cpu_lp_mask K (cpu policy) = true →
  get_min_freq K P policy
  = Vint (Z.max (boost_min_freq_lp P) (cpuinfo_min_freq policy)).
Proof. unfold get_min_freq. by intros ->. Qed.

(** Outside the low-power mask the local [freq] is never assigned. *)
Lemma get_freq_not_lp (policy : cpufreq_policy) :
  cpu_lp_mask K (cpu policy) = false →
  get_min_freq K P policy = Vundef ∧ get_idle_freq K P policy = Vundef.
Proof. unfold get_min_freq, get_idle_freq. by intros ->. Qed.

Lemma bridge_screen_off (s : sys) (policy : cpufreq_policy) :
  screen_off s = true →
  cpu_notifier_cb K P s (CPUFREQ_ADJUST K) policy
  = (NOTIFY_OK K,
     with_bw (cpubw_unboost (disable_schedtune_boost_top_app true (bw s))) s,
     set_min (get_idle_freq K P policy) policy).
Proof.
  intros Hoff. unfold cpu_notifier_cb. by rewrite Z.eqb_refl, Hoff.
Qed.


Lemma bridge_screen_on (s : sys) (policy : cpufreq_policy) :
  screen_off s = false →
  let '(ret, s', policy') :=
    cpu_notifier_cb K P s (CPUFREQ_ADJUST K) policy in
  ret = NOTIFY_OK K
  ∧ min policy' = get_min_freq K P policy
  ∧ state (drv s') = state (drv s)
  ∧ pm_qos_req (drv s')
    = (if max_boosted s then 43 else PM_QOS_CPU_DMA_LAT_DEFAULT_VALUE K)
  ∧ bw s' = (if boosted s then cpubw_boost else cpubw_unboost)
             (if max_boosted s then cpubw_boost (bw s) else bw s).
Proof.
  intros Hoff. unfold cpu_notifier_cb. rewrite Z.eqb_refl, Hoff. cbn.
  destruct (max_boosted s); cbn; destruct (boosted s); done.
Qed.

Lemma floor_screen_on (s : sys) (policy : cpufreq_policy) :
  screen_off s = false → floor K P s policy = get_min_freq K P policy.
Proof.
  intros Hoff. unfold floor.
  pose proof (bridge_screen_on s policy Hoff) as H.
  destruct (cpu_notifier_cb _ _ _ _ _) as [[ret s'] policy'].
  destruct H as (_ & H & _). exact H.
Qed.

Lemma base_bridge_screen_on (b : InputBoost.boost_drv)
    (policy : cpufreq_policy) :
  test_bit InputBoost.SCREEN_OFF (InputBoost.state b) = false →
  InputBoost.cpu_notifier_cb K P b (CPUFREQ_ADJUST K) policy
  = (NOTIFY_OK K, set_min (get_min_freq K P policy) policy).
Proof.
  intros Hoff. unfold InputBoost.cpu_notifier_cb.
  by rewrite Z.eqb_refl, Hoff.
Qed.

End Bridge.

Section BridgeClaims.
Import PowerHal.

Local Abbreviation screen_off s := (test_bit SCREEN_OFF (state (drv s))).
Local Abbreviation boosted s := (test_bit POWERHAL_BOOST (state (drv s))).
Local Abbreviation max_boosted s :=
  (test_bit POWERHAL_MAX_BOOST (state (drv s))).




(** C5, the claim as written fails: once the input boost of scenario A has
    run out, all three bits are clear and the bridge still returns the
    base-boost floor of 768 MHz, not the cluster minimum of 300 MHz. *)
Lemma floor_after_boost_is_not_cluster_min :
  let s := run target tunables [Kick; AdvanceTo 500] boot in
  screen_off s = false ∧ boosted s = false ∧ max_boosted s = false
  ∧ floor target tunables s little_policy = Vint 768000
  ∧ floor target tunables s little_policy
    ≠ Vint (cpuinfo_min_freq little_policy).
Proof. vm_compute. split_and!; done. Qed.

(** Scenario A as the code runs it: the boost bit is set until 500 and the
    floor is 768 MHz throughout. *)
Lemma scenario_a (t : Z) :
  0 ≤ t →
  let s := run target tunables [Kick; AdvanceTo t] boot in
  boosted s = bool_decide (t < 500)
  ∧ floor target tunables s little_policy = Vint 768000.
Proof.
  intros Ht s.
  assert (state (drv s) = if 500 <=? t then 0 else 2) as Hstate.
  { subst s.
    change (run target tunables [Kick; AdvanceTo t] boot)
      with (apply_event target tunables
              (run target tunables [Kick] boot) (AdvanceTo t)).
    set (s0 := run _ _ _ _).
    assert (drv s0 = {|
      powerhal_unboost := Some 500; powerhal_max_unboost := None;
      boost_waitq := 1%nat; powerhal_max_boost_expires := 0;
      state := 2; pm_qos_req := 2000000000 |}) as Hs0 by (by vm_compute).
    unfold apply_event, with_jiffies, with_drv. cbn [drv].
    rewrite Hs0. unfold run_unboost, run_max_unboost. cbn.
    destruct (500 <=? t); reflexivity. }
  assert (screen_off s = false) as Hoff.
  { rewrite Hstate. destruct (500 <=? t); reflexivity. }
  split.
  - rewrite Hstate. destruct (Z.leb_spec 500 t).
    + rewrite bool_decide_eq_false_2 by lia. reflexivity.
    + rewrite bool_decide_eq_true_2 by lia. reflexivity.
  - rewrite floor_screen_on by done. reflexivity.
Qed.

(** C5 (amended): with the screen-off bit clear the floor is what
    [get_min_freq] computes, on a low-power cluster max(base-boost floor,
    cluster minimum), whether or not the boost and max-boost bits are set.
    In scenario A the floor is 768 MHz before, during and after the boost;
    what ends at 500 ms is the boost bit. *)
Theorem screen_on_floor_is_base_boost (K : kernel) (P : params) :
  (∀ s policy,
     screen_off s = false → floor K P s policy = get_min_freq K P policy)
  ∧ (∀ b policy,
       test_bit InputBoost.SCREEN_OFF (InputBoost.state b) = false →
       InputBoost.cpu_notifier_cb K P b (CPUFREQ_ADJUST K) policy
       = (NOTIFY_OK K, set_min (get_min_freq K P policy) policy))
  ∧ (∀ policy,
       cpu_lp_mask K (cpu policy) = true →
       get_min_freq K P policy
       = Vint (Z.max (boost_min_freq_lp P) (cpuinfo_min_freq policy)))
  ∧ floor target tunables boot little_policy = Vint 768000
  ∧ (∀ t, 0 ≤ t →
       let s := run target tunables [Kick; AdvanceTo t] boot in
       boosted s = bool_decide (t < 500)
       ∧ floor target tunables s little_policy = Vint 768000).
Proof.
  split_and!.
  - apply floor_screen_on.
  - apply base_bridge_screen_on.
  - apply get_min_freq_lp.
  - reflexivity.
  - apply scenario_a.
Qed.

Lemma screen_on_floor_is_base_boost_witness :
  floor target tunables (run target tunables [Kick; AdvanceTo 500] boot)
    little_policy
  = Vint (Z.max 768000 300000)
  ∧ boosted (run target tunables [Kick; AdvanceTo 499] boot) = true
  ∧ boosted (run target tunables [Kick; AdvanceTo 500] boot) = false.
Proof.
  destruct (screen_on_floor_is_base_boost target tunables)
    as (Hfloor & _ & Hlp & _ & Ha).
  split_and!.
  - rewrite Hfloor by (vm_compute; reflexivity).
    apply (Hlp little_policy). reflexivity.
  - destruct (Ha 499) as [-> _]; [lia | reflexivity].
  - destruct (Ha 500) as [-> _]; [lia | reflexivity].
Defined.

(** C8, at a policy of the performance cluster: [freq] is read without
    ever having been assigned, so neither helper yields a defined value
    and the floor the bridge writes is undefined, screen on or off, in
    both variants. *)
Theorem big_cluster_floor_undefined :
  cpu_lp_mask target (cpu big_policy) = false
  ∧ get_min_freq target tunables big_policy = Vundef
  ∧ get_idle_freq target tunables big_policy = Vundef
  ∧ floor target tunables boot big_policy = Vundef
  ∧ floor target tunables
      (run target tunables [FbEvent 16 FB_BLANK_POWERDOWN] boot) big_policy
    = Vundef
  ∧ min (InputBoost.cpu_notifier_cb target tunables base_boot 0 big_policy).2
    = Vundef
  ∧ defined (floor target tunables boot little_policy) = true.
Proof. vm_compute. split_and!; reflexivity. Qed.

(** C10: with the screen-off bit set the bridge leaves the latency request
    at the value it had; with the screen on it writes 43 when max-boost is
    set and the default otherwise, so a recompute that brings the request
    back to the default from another value runs with screen-off and
    max-boost both clear.  In the timeline the request stays at 43 through
    screen-off, also once max-boost has run out, and returns to the default
    at the first recompute after the screen is on again. *)
Theorem screen_off_keeps_latency_request (K : kernel) (P : params) :
  (∀ s policy,
     let s' := (cpu_notifier_cb K P s (CPUFREQ_ADJUST K) policy).1.2 in
     (screen_off s = true → pm_qos_req (drv s') = pm_qos_req (drv s))
     ∧ (screen_off s = false → max_boosted s = true →
          pm_qos_req (drv s') = 43)
     ∧ (screen_off s = false → max_boosted s = false →
          pm_qos_req (drv s') = PM_QOS_CPU_DMA_LAT_DEFAULT_VALUE K)
     ∧ (PM_QOS_CPU_DMA_LAT_DEFAULT_VALUE K ≠ 43 →
        pm_qos_req (drv s) ≠ PM_QOS_CPU_DMA_LAT_DEFAULT_VALUE K →
        pm_qos_req (drv s') = PM_QOS_CPU_DMA_LAT_DEFAULT_VALUE K →
        screen_off s = false ∧ max_boosted s = false))
  ∧ map (λ evs, pm_qos_req (drv (run target tunables evs boot)))
      [ [KickMax 1000; Recompute little_policy];
        [KickMax 1000; Recompute little_policy; AdvanceTo 400;
         FbEvent 16 FB_BLANK_POWERDOWN; Recompute little_policy];
        [KickMax 1000; Recompute little_policy; AdvanceTo 400;
         FbEvent 16 FB_BLANK_POWERDOWN; Recompute little_policy;
         AdvanceTo 1000; Recompute little_policy];
        [KickMax 1000; Recompute little_policy; AdvanceTo 400;
         FbEvent 16 FB_BLANK_POWERDOWN; Recompute little_policy;
         AdvanceTo 1000; Recompute little_policy;
         FbEvent 16 0; Recompute little_policy] ]
    = [43; 43; 43; 2000000000].
Proof.
  split; [| by vm_compute].
  intros s policy s'.
  assert (screen_off s = true → pm_qos_req (drv s') = pm_qos_req (drv s))
    as Hoff.
  { intros Hoff. subst s'. by rewrite bridge_screen_off. }
  assert (screen_off s = false →
          pm_qos_req (drv s')
          = if max_boosted s then 43
            else PM_QOS_CPU_DMA_LAT_DEFAULT_VALUE K) as Hon.
  { intros Hon. subst s'.
    pose proof (bridge_screen_on K P s policy Hon) as H.
    destruct (cpu_notifier_cb _ _ _ _ _) as [[ret s1] policy1].
    destruct H as (_ & _ & _ & H & _). exact H. }
  split_and!.
  - exact Hoff.
  - intros Hs Hm. rewrite Hon, Hm; done.
  - intros Hs Hm. rewrite Hon, Hm; done.
  - intros Hdef Hold Hnew.
    destruct (screen_off s) eqn:Hs.
    + rewrite Hoff in Hnew; done.
    + rewrite Hon in Hnew by done.
      destruct (max_boosted s); [done | done].
Qed.

Lemma screen_off_keeps_latency_request_witness :
  let s := run target tunables
             [KickMax 1000; Recompute little_policy; AdvanceTo 400;
              FbEvent 16 FB_BLANK_POWERDOWN] boot in
  pm_qos_req (drv s) = 43
  ∧ pm_qos_req (drv (cpu_notifier_cb target tunables s 0 little_policy).1.2)
    = 43.
Proof.
  intros s.
  assert (pm_qos_req (drv s) = 43) as Hs by (vm_compute; reflexivity).
  split; [exact Hs |].
  destruct (screen_off_keeps_latency_request target tunables) as [H _].
  destruct (H s little_policy) as (Hoff & _).
  rewrite <- Hs. apply Hoff. vm_compute. reflexivity.
Defined.

End BridgeClaims.

(** ** Kicks, input events and display events *)

Section Kick.
Import PowerHal.

Local Abbreviation screen_off s := (test_bit SCREEN_OFF (state (drv s))).
Local Abbreviation boosted s := (test_bit POWERHAL_BOOST (state (drv s))).

(** What a kick does when it gets past its two guards. *)
Lemma kick_takes_effect (K : kernel) (P : params) (s : sys) :
  let s' := __powerhal_boost_kick K P s in
  screen_off s = false →
  powerhal_boost_duration P ≠ 0 →
  drv s' =
    (if powerhal_unboost (drv s) is Some _ then id else wake_up)
      (with_unboost
         (Some (to_ulong
                  (jiffies s + msecs_to_jiffies K (powerhal_boost_duration P))))
         (with_state (set_bit POWERHAL_BOOST (state (drv s))) (drv s)))
  ∧ jiffies s' = jiffies s ∧ bw s' = bw s.
Proof.
  intros s' Hoff Hdur. subst s'. unfold __powerhal_boost_kick.
  rewrite Hoff. apply Z.eqb_neq in Hdur. rewrite Hdur.
  unfold mod_delayed_work. cbn.
  destruct (powerhal_unboost (drv s)); done.
Qed.

(** Two kicks 100 ms apart: one firing of the unboost worker, 500 ms after
    the second kick. *)
Lemma kick_burst (t : Z) :
  100 ≤ t →
  let s := run target tunables [Kick; AdvanceTo 100; Kick; AdvanceTo t] boot in
  boosted s = bool_decide (t < 600)
  ∧ boost_waitq (drv s) = (if bool_decide (t < 600) then 1%nat else 2%nat).
Proof.
  intros Ht s. subst s.
  change (run target tunables [Kick; AdvanceTo 100; Kick; AdvanceTo t] boot)
    with (apply_event target tunables
            (run target tunables [Kick; AdvanceTo 100; Kick] boot)
            (AdvanceTo t)).
  set (s0 := run _ _ _ _).
  assert (drv s0 = {|
    powerhal_unboost := Some 600; powerhal_max_unboost := None;
    boost_waitq := 1%nat; powerhal_max_boost_expires := 0;
    state := 2; pm_qos_req := 2000000000 |}) as Hs0 by (by vm_compute).
  unfold apply_event, with_jiffies, with_drv. cbn [drv].
  rewrite Hs0. unfold run_unboost, run_max_unboost. cbn.
  destruct (Z.leb_spec 600 t); cbn.
  - rewrite bool_decide_eq_false_2 by lia. done.
  - rewrite bool_decide_eq_true_2 by lia. done.
Qed.

(** C4, the claim as written fails: a kick that finds the boost timer
    pending rearms it and does not wake the coordinator. *)
Lemma kick_with_pending_timer_does_not_wake :
  let s := run target tunables [Kick; AdvanceTo 100] boot in
  let s' := powerhal_boost_kick target tunables s in
  screen_off s = false
  ∧ powerhal_boost_duration tunables ≠ 0
  ∧ powerhal_unboost (drv s) = Some 500
  ∧ powerhal_unboost (drv s') = Some 600
  ∧ boost_waitq (drv s') = boost_waitq (drv s).
Proof. vm_compute. split_and!; done. Qed.

(** C4 (amended): a kick changes nothing when the screen-off bit is set or
    the boost duration is 0; otherwise it sets the boost bit and puts the
    single slot of the boost timer at now + duration, and it wakes the
    coordinator only when that timer was not pending already; nothing else
    changes.  Within a burst there is one firing, 500 ms after the last
    kick. *)
Theorem kick_arms_boost (K : kernel) (P : params) :
  (∀ s, screen_off s = true ∨ powerhal_boost_duration P = 0 →
        __powerhal_boost_kick K P s = s)
  ∧ (∀ s,
       let s' := __powerhal_boost_kick K P s in
       screen_off s = false →
       powerhal_boost_duration P ≠ 0 →
       boosted s' = true
       ∧ state (drv s') = set_bit POWERHAL_BOOST (state (drv s))
       ∧ powerhal_unboost (drv s')
         = Some (to_ulong (jiffies s
                           + msecs_to_jiffies K (powerhal_boost_duration P)))
       ∧ boost_waitq (drv s')
         = (if powerhal_unboost (drv s) is Some _ then boost_waitq (drv s)
            else S (boost_waitq (drv s)))
       ∧ powerhal_max_unboost (drv s') = powerhal_max_unboost (drv s)
       ∧ powerhal_max_boost_expires (drv s')
         = powerhal_max_boost_expires (drv s)
       ∧ pm_qos_req (drv s') = pm_qos_req (drv s)
       ∧ jiffies s' = jiffies s ∧ bw s' = bw s)
  ∧ (∀ t, 100 ≤ t →
       let s :=
         run target tunables [Kick; AdvanceTo 100; Kick; AdvanceTo t] boot in
       boosted s = bool_decide (t < 600)
       ∧ boost_waitq (drv s) = (if bool_decide (t < 600) then 1%nat else 2%nat)).
Proof.
  split_and!.
  - intros s [Hoff | Hdur]; unfold __powerhal_boost_kick.
    + by rewrite Hoff.
    + rewrite Hdur. by destruct (screen_off s).
  - intros s s' Hoff Hdur.
    destruct (kick_takes_effect K P s Hoff Hdur) as (Hdrv & Hj & Hbw).
    fold s' in Hdrv, Hj, Hbw. rewrite Hdrv.
    destruct (powerhal_unboost (drv s)); cbn;
      (split_and!; try done; by apply test_set_bit_same).
  - apply kick_burst.
Qed.

Lemma kick_arms_boost_witness :
  __powerhal_boost_kick target tunables
    (run target tunables [FbEvent 16 FB_BLANK_POWERDOWN] boot)
  = run target tunables [FbEvent 16 FB_BLANK_POWERDOWN] boot
  ∧ powerhal_unboost (drv (__powerhal_boost_kick target tunables boot))
    = Some 500
  ∧ boost_waitq (drv (__powerhal_boost_kick target tunables boot)) = 1%nat
  ∧ boosted
      (run target tunables [Kick; AdvanceTo 100; Kick; AdvanceTo 599] boot)
    = true.
Proof.
  destruct (kick_arms_boost target tunables) as (Hnop & Hkick & Hburst).
  assert (screen_off boot = false) as Hon by reflexivity.
  assert (powerhal_boost_duration tunables ≠ 0) as Hdur by (simpl; lia).
  destruct (Hkick boot Hon Hdur) as (_ & _ & Htimer & Hwake & _).
  split; [| split; [| split]].
  - apply Hnop. left. vm_compute. reflexivity.
  - rewrite Htimer. reflexivity.
  - rewrite Hwake. reflexivity.
  - destruct (Hburst 599) as [-> _]; [lia | reflexivity].
Defined.

(** C3, the claim as written fails for drivers/cpufreq/cpu_input_boost.c:
    its handler has an empty body, so an event from a touchscreen leaves the
    driver as it was, where a kick sets the boost bit and wakes the
    coordinator. *)
Lemma base_input_event_does_nothing :
  InputBoost.cpu_input_boost_input_event base_boot 3 53 100 = base_boot
  ∧ state (drv (powerhal_boost_kick target tunables boot)) ≠ state (drv boot)
  ∧ boost_waitq (drv (powerhal_boost_kick target tunables boot))
    ≠ boost_waitq (drv boot).
Proof. vm_compute. split_and!; done. Qed.

(** C3 (amended): in the richer variant the handler does, for every event
    type, code and value, exactly what the external entry point
    [powerhal_boost_kick] does; in cpu_input_boost.c the handler does
    nothing. *)
Theorem input_event_kicks :
  (∀ K P s type code value,
     cpu_input_boost_input_event K P s type code value
     = powerhal_boost_kick K P s)
  ∧ (∀ b type code value,
       InputBoost.cpu_input_boost_input_event b type code value = b).
Proof. split; reflexivity. Qed.

(** C6, at an early blank event that reports the display fully unblanked:
    both variants clear the screen-off bit and return without a [wake_up],
    while every other blank level sets the bit and wakes the coordinator.
    After the screen has gone off and on again the wait queue has seen the
    one wake-up of the blanking only. *)
Theorem fb_unblank_does_not_wake :
  (∀ K s,
     let s' := (fb_notifier_cb K s (FB_EARLY_EVENT_BLANK K)
                  (FB_BLANK_UNBLANK K)).2 in
     screen_off s' = false ∧ boost_waitq (drv s') = boost_waitq (drv s))
  ∧ (∀ K b,
       let b' := (InputBoost.fb_notifier_cb K b (FB_EARLY_EVENT_BLANK K)
                    (FB_BLANK_UNBLANK K)).2 in
       test_bit InputBoost.SCREEN_OFF (InputBoost.state b') = false
       ∧ InputBoost.boost_waitq b' = InputBoost.boost_waitq b)
  ∧ (∀ K s blank,
       blank ≠ FB_BLANK_UNBLANK K →
       let s' := (fb_notifier_cb K s (FB_EARLY_EVENT_BLANK K) blank).2 in
       screen_off s' = true ∧ boost_waitq (drv s') = S (boost_waitq (drv s)))
  ∧ (let s := run target tunables [FbEvent 16 FB_BLANK_POWERDOWN] boot in
     let s' := (fb_notifier_cb target s 16 0).2 in
     screen_off s = true ∧ boost_waitq (drv s) = 1%nat
     ∧ screen_off s' = false ∧ boost_waitq (drv s') = 1%nat).
Proof.
  split_and!.
  - intros K s. unfold fb_notifier_cb. rewrite !Z.eqb_refl. cbn.
    split; [apply test_clear_bit_same | done].
  - intros K b. unfold InputBoost.fb_notifier_cb. rewrite !Z.eqb_refl. cbn.
    split; [apply test_clear_bit_same | done].
  - intros K s blank Hblank. unfold fb_notifier_cb. rewrite Z.eqb_refl.
    apply Z.eqb_neq in Hblank. rewrite Hblank. cbn.
    split; [by apply test_set_bit_same | done].
  - by vm_compute.
Qed.

Lemma fb_unblank_does_not_wake_witness :
  boost_waitq
    (drv (fb_notifier_cb target boot 16 FB_BLANK_POWERDOWN).2) = 1%nat.
Proof.
  destruct fb_unblank_does_not_wake as (_ & _ & Hblank & _).
  destruct (Hblank target boot FB_BLANK_POWERDOWN) as [_ Hwake].
  - simpl. unfold FB_BLANK_POWERDOWN. lia.
  - exact Hwake.
Defined.

End Kick.

(** ** The coordinator thread *)

Section Coordinator.

(** C7, the claim as written fails: the thread wakes with the stop signal
    raised and a state word that differs from the value it last acted on;
    the first disjunct of the wait condition is true, the stop flag is not
    even read, and one recompute is issued.  The thread returns at the next
    evaluation. *)
Lemma stop_with_pending_change_recomputes :
  let o := {| obs_state := 1; obs_stop := true |} in
  wait_condition 0 false o = (true, 1, false)
  ∧ cpu_boost_thread [o] = (1%nat, 1, Waiting)
  ∧ cpu_boost_thread [o; o] = (1%nat, 1, Returned 0).
Proof. by vm_compute. Qed.

(** C7 (amended): when the thread evaluates its wait condition with the
    stop signal raised, it returns without a recompute if the state word
    equals the value it last acted on; if the state word differs, the
    state change goes first: one recompute is issued for it, and the thread
    returns at its next evaluation provided the state word is unchanged and
    the stop signal still raised then. *)
Theorem stop_yields_to_pending_change (old_state : Z) (updates : nat)
    (o : observation) (rest : list observation) :
  obs_stop o = true →
  (obs_state o = old_state →
     cpu_boost_thread_loop (o :: rest) old_state updates
     = (updates, old_state, Returned 0))
  ∧ (obs_state o ≠ old_state →
       cpu_boost_thread_loop (o :: rest) old_state updates
       = cpu_boost_thread_loop rest (obs_state o) (S updates))
  ∧ (obs_state o ≠ old_state →
       ∀ o' rest',
         rest = o' :: rest' →
         obs_state o' = obs_state o → obs_stop o' = true →
         cpu_boost_thread_loop (o :: rest) old_state updates
         = (S updates, obs_state o, Returned 0)).
Proof.
  intros Hstop.
  assert (obs_state o = old_state →
          cpu_boost_thread_loop (o :: rest) old_state updates
          = (updates, old_state, Returned 0)) as Hsame.
  { intros Heq. simpl. unfold wait_condition.
    apply Z.eqb_eq in Heq. rewrite Heq, Hstop. done. }
  assert (obs_state o ≠ old_state →
          cpu_boost_thread_loop (o :: rest) old_state updates
          = cpu_boost_thread_loop rest (obs_state o) (S updates)) as Hdiff.
  { intros Hne. simpl. unfold wait_condition.
    apply Z.eqb_neq in Hne. rewrite Hne. done. }
  split_and!; [done | done |].
  intros Hne o' rest' -> Hstate' Hstop'. rewrite Hdiff by done.
  simpl. unfold wait_condition.
  apply Z.eqb_eq in Hstate'. rewrite Hstate', Hstop'. done.
Qed.

Lemma stop_yields_to_pending_change_witness :
  cpu_boost_thread_loop
    [{| obs_state := 4; obs_stop := true |}] 4 3%nat = (3%nat, 4, Returned 0)
  ∧ cpu_boost_thread_loop
      [{| obs_state := 1; obs_stop := true |};
       {| obs_state := 1; obs_stop := true |}] 0 0%nat
    = (1%nat, 1, Returned 0).
Proof.
  split.
  - apply (stop_yields_to_pending_change 4 3
             {| obs_state := 4; obs_stop := true |} []); reflexivity.
  - eapply (stop_yields_to_pending_change 0 0
              {| obs_state := 1; obs_stop := true |}
              [{| obs_state := 1; obs_stop := true |}]);
      [reflexivity | simpl; lia | reflexivity | reflexivity | reflexivity].
Defined.

End Coordinator.

(** ** Initialisation *)

Section Init.

(** cpu_input_boost.c: a failing [cpu_input_boost_init] has undone, last
    first, everything it had registered; otherwise all four registrations
    are in effect. *)
Lemma base_init_unwinds (e : init_env) :
  let r := InputBoost.cpu_input_boost_init e in
  (in_effect r.2 = [] ∧ unregistered r.2 = reverse (registered r.2))
  ∨ (r = (0, [Register CpuNotifier; Register InputHandler;
              Register FbNotifier; Register BoostThread])
     ∧ kthread_run_err e = None).
Proof.
  destruct e as [r1 r2 r3 kt]; unfold InputBoost.cpu_input_boost_init; cbn.
  destruct (negb (r1 =? 0)); [left; by vm_compute |].
  destruct (negb (r2 =? 0)); [left; by vm_compute |].
  destruct (negb (r3 =? 0)) eqn:Hr3; [left; by vm_compute |].
  destruct kt as [err|]; [left; by vm_compute |].
  apply negb_false_iff, Z.eqb_eq in Hr3. right. by subst r3.
Qed.

(** The richer variant does the same once the cpufreq notifier is
    registered. *)
Lemma rich_init_unwinds (e : init_env) :
  cpufreq_register_notifier_ret e = 0 →
  let r := PowerHal.cpu_input_boost_init e in
  (in_effect r.2 = [] ∧ unregistered r.2 = reverse (registered r.2))
  ∨ (r = (0, [Register PmQosRequest; Register CpuNotifier;
              Register InputHandler; Register FbNotifier;
              Register BoostThread])
     ∧ kthread_run_err e = None).
Proof.
  destruct e as [r1 r2 r3 kt]; unfold PowerHal.cpu_input_boost_init; cbn.
  intros ->. cbn.
  destruct (negb (r2 =? 0)); [left; by vm_compute |].
  destruct (negb (r3 =? 0)) eqn:Hr3; [left; by vm_compute |].
  destruct kt as [err|]; [left; by vm_compute |].
  apply negb_false_iff, Z.eqb_eq in Hr3. right. by subst r3.
Qed.

(** C9, at a failing [cpufreq_register_notifier] in the richer variant:
    [cpu_input_boost_init] returns the error straight away and the
    latency-QoS request it added first stays in effect; the later failure
    paths of the same function do remove it, and cpu_input_boost.c, which
    adds no such request, leaves nothing behind. *)
Theorem rich_init_leaks_pm_qos_request :
  let e := {| cpufreq_register_notifier_ret := - EINVAL;
              input_register_handler_ret := 0;
              fb_register_client_ret := 0;
              kthread_run_err := None |} in
  PowerHal.cpu_input_boost_init e = (- EINVAL, [Register PmQosRequest])
  ∧ in_effect (PowerHal.cpu_input_boost_init e).2 = [PmQosRequest]
  ∧ in_effect (InputBoost.cpu_input_boost_init e).2 = []
  ∧ (let e' := {| cpufreq_register_notifier_ret := 0;
                  input_register_handler_ret := - EINVAL;
                  fb_register_client_ret := 0;
                  kthread_run_err := None |} in
     PowerHal.cpu_input_boost_init e'
     = (- EINVAL, [Register PmQosRequest; Register CpuNotifier;
                   Unregister CpuNotifier; Unregister PmQosRequest])
     ∧ in_effect (PowerHal.cpu_input_boost_init e').2 = []).
Proof. by vm_compute. Qed.

End Init.

(** * Further properties of the code *)

(** ** More on bits *)

Lemma set_bit_idem (nr w : Z) : set_bit nr (set_bit nr w) = set_bit nr w.
Proof.
  unfold set_bit, Z.setbit. by rewrite <- Z.lor_assoc, Z.lor_diag.
Qed.

Lemma clear_bit_comm (nr nr' w : Z) :
  clear_bit nr (clear_bit nr' w) = clear_bit nr' (clear_bit nr w).
Proof.
  unfold clear_bit, Z.clearbit. apply Z.bits_inj'. intros k Hk.
  rewrite !Z.ldiff_spec. by destruct (Z.testbit w k), (Z.testbit _ k),
    (Z.testbit _ k).
Qed.

Lemma clear_set_bit (nr w : Z) :
  0 ≤ nr → test_bit nr w = false → clear_bit nr (set_bit nr w) = w.
Proof.
  unfold test_bit, clear_bit, set_bit. intros Hnr Hclear.
  apply Z.bits_inj'. intros k Hk.
  destruct (decide (nr = k)) as [<- | Hne].
  - by rewrite Z.clearbit_eq, Hclear.
  - rewrite Z.clearbit_neq by done. by apply Z.setbit_neq.
Qed.

(** ** Kicks, display events and the unboost workers *)

Section MoreKick.
Import PowerHal.
Context (K : kernel) (P : params).

Local Abbreviation screen_off s := (test_bit SCREEN_OFF (state (drv s))).
Local Abbreviation boosted s := (test_bit POWERHAL_BOOST (state (drv s))).
Local Abbreviation max_boosted s :=
  (test_bit POWERHAL_MAX_BOOST (state (drv s))).

Lemma sys_eq (s s' : sys) :
  drv s = drv s' → jiffies s = jiffies s' → bw s = bw s' → s = s'.
Proof. destruct s, s'. cbn. by intros -> -> ->. Qed.

(** Kicking twice at the same instant is kicking once: the second kick
    finds the bit set and the timer pending at the same due time, and does
    not wake the coordinator again. *)
Lemma kick_idempotent (s : sys) :
  __powerhal_boost_kick K P (__powerhal_boost_kick K P s)
  = __powerhal_boost_kick K P s.
Proof.
  destruct (screen_off s) eqn:Hoff.
  { assert (__powerhal_boost_kick K P s = s) as Hnop
      by (unfold __powerhal_boost_kick; by rewrite Hoff).
    by rewrite !Hnop. }
  destruct (decide (powerhal_boost_duration P = 0)) as [Hdur | Hdur].
  { assert (__powerhal_boost_kick K P s = s) as Hnop
      by (unfold __powerhal_boost_kick; by rewrite Hoff, Hdur).
    by rewrite !Hnop. }
  destruct (kick_takes_effect K P s Hoff Hdur) as (Hdrv & Hj & Hbw).
  set (s1 := __powerhal_boost_kick K P s) in *.
  assert (state (drv s1) = set_bit POWERHAL_BOOST (state (drv s))) as Hst.
  { rewrite Hdrv. by destruct (powerhal_unboost (drv s)). }
  assert (screen_off s1 = false) as Hoff1.
  { rewrite Hst, test_set_bit_other; [done | done | done]. }
  destruct (kick_takes_effect K P s1 Hoff1 Hdur) as (Hdrv2 & Hj2 & Hbw2).
  apply sys_eq; [| congruence | congruence].
  rewrite Hdrv2, Hj, Hst, set_bit_idem, Hdrv.
  by destruct (powerhal_unboost (drv s)).
Qed.

(** A display event changes nothing but the screen-off bit, the wait queue
    and the top-app switch: boost bits, timers, the deadline, the latency
    request, the clock and the hysteresis values stay as they are. *)
Lemma fb_notifier_cb_frame (s : sys) (action blank : Z) :
  let s' := (fb_notifier_cb K s action blank).2 in
  boosted s' = boosted s
  ∧ max_boosted s' = max_boosted s
  ∧ powerhal_unboost (drv s') = powerhal_unboost (drv s)
  ∧ powerhal_max_unboost (drv s') = powerhal_max_unboost (drv s)
  ∧ powerhal_max_boost_expires (drv s') = powerhal_max_boost_expires (drv s)
  ∧ pm_qos_req (drv s') = pm_qos_req (drv s)
  ∧ jiffies s' = jiffies s
  ∧ hyst_trigger_count (bw s') = hyst_trigger_count (bw s)
  ∧ hist_memory (bw s') = hist_memory (bw s)
  ∧ hyst_length (bw s') = hyst_length (bw s).
Proof.
  unfold fb_notifier_cb. repeat case_match; cbn; split_and!; try done;
    first [by apply test_clear_bit_other | by apply test_set_bit_other].
Qed.

(** Once an early blank event has reported anything but "unblanked", both
    kick entry points leave the driver alone. *)
Lemma kicks_ignored_after_blank (s : sys) (blank duration_ms : Z) :
  blank ≠ FB_BLANK_UNBLANK K →
  let s' := (fb_notifier_cb K s (FB_EARLY_EVENT_BLANK K) blank).2 in
  powerhal_boost_kick K P s' = s'
  ∧ powerhal_boost_kick_max K s' duration_ms = s'
  ∧ ∀ type code value,
      cpu_input_boost_input_event K P s' type code value = s'.
Proof.
  intros Hblank s'.
  assert (screen_off s' = true) as Hoff.
  { subst s'. unfold fb_notifier_cb. rewrite Z.eqb_refl.
    apply Z.eqb_neq in Hblank. rewrite Hblank. cbn.
    by apply test_set_bit_same. }
  unfold powerhal_boost_kick, powerhal_boost_kick_max,
    cpu_input_boost_input_event, __powerhal_boost_kick,
    __powerhal_boost_kick_max.
  by rewrite Hoff.
Qed.

(** Screen off and on again: the state word is back where it was, the
    coordinator has been woken once (by the blanking), and the top-app
    switch is on "not disabled". *)
Lemma blank_unblank_round_trip (s : sys) (blank : Z) :
  blank ≠ FB_BLANK_UNBLANK K →
  screen_off s = false →
  let s1 := (fb_notifier_cb K s (FB_EARLY_EVENT_BLANK K) blank).2 in
  let s2 := (fb_notifier_cb K s1 (FB_EARLY_EVENT_BLANK K)
               (FB_BLANK_UNBLANK K)).2 in
  state (drv s2) = state (drv s)
  ∧ boost_waitq (drv s2) = S (boost_waitq (drv s))
  ∧ top_app_boost_disabled (bw s2) = false.
Proof.
  intros Hblank Hon s1 s2. subst s1 s2. unfold fb_notifier_cb.
  rewrite !Z.eqb_refl. apply Z.eqb_neq in Hblank. rewrite Hblank. cbn.
  split_and!; [| done | done].
  by apply clear_set_bit.
Qed.

(** Each unboost worker clears its own bit and nothing else in the state
    word, always wakes the coordinator, and the two can run in either
    order. *)
Lemma unboost_workers (b : boost_drv) :
  (test_bit POWERHAL_BOOST (state (powerhal_unboost_worker b)) = false
   ∧ (∀ nr, nr ≠ POWERHAL_BOOST →
        test_bit nr (state (powerhal_unboost_worker b))
        = test_bit nr (state b))
   ∧ boost_waitq (powerhal_unboost_worker b) = S (boost_waitq b))
  ∧ (test_bit POWERHAL_MAX_BOOST (state (powerhal_max_unboost_worker b))
     = false
     ∧ (∀ nr, nr ≠ POWERHAL_MAX_BOOST →
          test_bit nr (state (powerhal_max_unboost_worker b))
          = test_bit nr (state b))
     ∧ boost_waitq (powerhal_max_unboost_worker b) = S (boost_waitq b))
  ∧ powerhal_unboost_worker (powerhal_max_unboost_worker b)
    = powerhal_max_unboost_worker (powerhal_unboost_worker b).
Proof.
  unfold powerhal_unboost_worker, powerhal_max_unboost_worker. cbn.
  split_and!; try done.
  - apply test_clear_bit_same.
  - intros nr Hnr. by apply test_clear_bit_other.
  - apply test_clear_bit_same.
  - intros nr Hnr. by apply test_clear_bit_other.
  - unfold wake_up, with_state. cbn. by rewrite clear_bit_comm.
Qed.

End MoreKick.

(** ** What the bridge leaves alone *)

Section MoreBridge.
Import PowerHal.
Context (K : kernel) (P : params).

Local Abbreviation screen_off s := (test_bit SCREEN_OFF (state (drv s))).
Local Abbreviation boosted s := (test_bit POWERHAL_BOOST (state (drv s))).
Local Abbreviation max_boosted s :=
  (test_bit POWERHAL_MAX_BOOST (state (drv s))).

(** The bridge reads the boost state and never writes it: state word,
    timers, deadline, wait queue and clock come out as they went in,
    whatever the notifier action; [cpuinfo.min_freq] and the CPU of the
    policy are not touched either. *)
Lemma bridge_frame (s : sys) (action : Z) (policy : cpufreq_policy) :
  let '(ret, s', policy') := cpu_notifier_cb K P s action policy in
  ret = NOTIFY_OK K
  ∧ state (drv s') = state (drv s)
  ∧ powerhal_unboost (drv s') = powerhal_unboost (drv s)
  ∧ powerhal_max_unboost (drv s') = powerhal_max_unboost (drv s)
  ∧ powerhal_max_boost_expires (drv s') = powerhal_max_boost_expires (drv s)
  ∧ boost_waitq (drv s') = boost_waitq (drv s)
  ∧ jiffies s' = jiffies s
  ∧ cpu policy' = cpu policy
  ∧ cpuinfo_min_freq policy' = cpuinfo_min_freq policy.
Proof.
  unfold cpu_notifier_cb.
  destruct (negb _); [done |].
  destruct (screen_off s); [done |].
  destruct (max_boosted s); cbn; destruct (boosted s); done.
Qed.

(** Running the bridge a second time changes nothing: a spurious recompute
    is harmless. *)
Lemma bridge_idempotent (s : sys) (action : Z) (policy : cpufreq_policy) :
  let '(ret, s', policy') := cpu_notifier_cb K P s action policy in
  cpu_notifier_cb K P s' action policy' = (ret, s', policy').
Proof.
  unfold cpu_notifier_cb at 1.
  destruct (negb (action =? CPUFREQ_ADJUST K)) eqn:Hact.
  { unfold cpu_notifier_cb. by rewrite Hact. }
  destruct (screen_off s) eqn:Hoff.
  { unfold cpu_notifier_cb. cbn. by rewrite Hact, Hoff. }
  destruct (max_boosted s) eqn:Hmax; cbn; destruct (boosted s) eqn:Hb;
    unfold cpu_notifier_cb; cbn; rewrite Hact, Hoff, Hmax; cbn;
    by rewrite Hb.
Qed.

(** After a recompute the bandwidth hysteresis is at its boosted values
    (0, 0, 0) exactly when the screen is on and the input-boost bit is set;
    in every other case, max-boost alone included, it is at (3, 20, 10). *)
Lemma hysteresis_after_recompute (s : sys) (policy : cpufreq_policy) :
  let s' := (cpu_notifier_cb K P s (CPUFREQ_ADJUST K) policy).1.2 in
  (hyst_trigger_count (bw s'), hist_memory (bw s'), hyst_length (bw s'))
  = if negb (screen_off s) && boosted s then (0, 0, 0) else (3, 20, 10).
Proof.
  unfold cpu_notifier_cb. rewrite Z.eqb_refl. cbn.
  destruct (screen_off s); [done |].
  destruct (max_boosted s); cbn; destruct (boosted s); done.
Qed.

(** The floor is a defined value exactly for the CPUs of the low-power
    mask, and then it is neither below the cluster minimum nor below the
    tunable floor in force (idle floor with the screen off, base-boost floor
    with it on). *)
Lemma floor_defined_iff_lp (s : sys) (policy : cpufreq_policy) :
  defined (floor K P s policy) = cpu_lp_mask K (cpu policy)
  ∧ ∀ v, floor K P s policy = Vint v →
      cpuinfo_min_freq policy ≤ v
      ∧ (if screen_off s then idle_min_freq_lp P else boost_min_freq_lp P)
        ≤ v.
Proof.
  unfold floor, cpu_notifier_cb. rewrite Z.eqb_refl. cbn.
  unfold get_idle_freq, get_min_freq.
  destruct (screen_off s); [| destruct (max_boosted s)]; cbn;
    destruct (cpu_lp_mask K (cpu policy)); cbn;
    (split; [done | intros v [= <-]; lia]).
Qed.

(** The two variants hand the same verdict and the same floor to cpufreq
    whenever their screen-off bits agree. *)
Lemma variants_agree_on_floor (b : InputBoost.boost_drv) (s : sys)
    (action : Z) (policy : cpufreq_policy) :
  test_bit InputBoost.SCREEN_OFF (InputBoost.state b) = screen_off s →
  InputBoost.cpu_notifier_cb K P b action policy
  = ((cpu_notifier_cb K P s action policy).1.1,
     (cpu_notifier_cb K P s action policy).2).
Proof.
  intros Hbit. unfold InputBoost.cpu_notifier_cb, cpu_notifier_cb.
  rewrite Hbit. destruct (negb _); [done |].
  destruct (screen_off s); [done |].
  destruct (max_boosted s); done.
Qed.

End MoreBridge.

(** ** Boosts over time *)

Ltac clear_bits :=
  repeat first
    [ rewrite test_clear_bit_same
    | rewrite test_clear_bit_other by done ].

Section MoreTimeline.
Import PowerHal.
Context (K : kernel) (P : params).

Local Abbreviation screen_off s := (test_bit SCREEN_OFF (state (drv s))).
Local Abbreviation boosted s := (test_bit POWERHAL_BOOST (state (drv s))).
Local Abbreviation max_boosted s :=
  (test_bit POWERHAL_MAX_BOOST (state (drv s))).
Local Abbreviation expires s := (powerhal_max_boost_expires (drv s)).

(** [kick_max] touches neither the screen-off and input-boost bits nor the
    input-boost timer, the latency request, the clock or the hints, and it
    wakes the coordinator at most once, and then only if it armed a timer
    that was idle. *)
Lemma kick_max_frame (s : sys) (duration_ms : Z) :
  let s' := __powerhal_boost_kick_max K s duration_ms in
  screen_off s' = screen_off s
  ∧ boosted s' = boosted s
  ∧ powerhal_unboost (drv s') = powerhal_unboost (drv s)
  ∧ pm_qos_req (drv s') = pm_qos_req (drv s)
  ∧ jiffies s' = jiffies s ∧ bw s' = bw s
  ∧ (boost_waitq (drv s') = boost_waitq (drv s)
     ∨ boost_waitq (drv s') = S (boost_waitq (drv s))
       ∧ powerhal_max_unboost (drv s) = None
       ∧ is_Some (powerhal_max_unboost (drv s'))).
Proof.
  unfold __powerhal_boost_kick_max.
  destruct (screen_off s) eqn:Hoff; [by auto 10 |].
  destruct (time_after _ _); [by auto 10 |].
  unfold mod_delayed_work. cbn.
  destruct (powerhal_max_unboost (drv s)) as [due|] eqn:Hdue; cbn;
    rewrite !test_set_bit_other by done; rewrite ?Hoff;
    split_and!; try done; [by left | right; by eauto].
Qed.

(** What passing time does to the two boost bits. *)
Lemma advance_boost_bits (s : sys) (t : Z) :
  let s' := apply_event K P s (AdvanceTo t) in
  boosted s'
  = (boosted s
     && negb (if powerhal_unboost (drv s) is Some due then due <=? t
              else false))
  ∧ max_boosted s'
    = (max_boosted s
       && negb (if powerhal_max_unboost (drv s) is Some due then due <=? t
                else false))
  ∧ screen_off s' = screen_off s
  ∧ expires s' = expires s.
Proof.
  cbn. unfold run_max_unboost, run_unboost.
  destruct (powerhal_unboost (drv s)) as [due|];
    [destruct (due <=? t) |]; cbn;
    (destruct (powerhal_max_unboost (drv s)) as [due'|];
      [destruct (due' <=? t) |]); cbn;
    clear_bits; rewrite ?andb_true_r, ?andb_false_r; done.
Qed.

(** After a kick that takes effect the boost bit stays set until the
    configured duration has passed since that kick, and is clear from then
    on, whatever timer was pending from earlier kicks.  (Bits and timers
    together at the start, as every timeline leaves them, and the due time
    in the lower half of the range, where jiffies compare as numbers.) *)
Lemma kick_holds_for_duration (s : sys) (t : Z) :
  let boost_jiffies := msecs_to_jiffies K (powerhal_boost_duration P) in
  screen_off s = false →
  powerhal_boost_duration P ≠ 0 →
  timers_match (drv s) →
  0 ≤ jiffies s →
  0 ≤ boost_jiffies →
  jiffies s + boost_jiffies < 2 ^ (BITS_PER_LONG - 1) →
  jiffies s ≤ t →
  boosted (run K P [Kick; AdvanceTo t] s)
  = bool_decide (t < jiffies s + boost_jiffies).
Proof.
  intros bj Hoff Hdur _ Hj Hbj Hwin _.
  change (run K P [Kick; AdvanceTo t] s)
    with (apply_event K P (__powerhal_boost_kick K P s) (AdvanceTo t)).
  destruct (advance_boost_bits (__powerhal_boost_kick K P s) t) as [-> _].
  destruct (kick_takes_effect K P s Hoff Hdur) as (Hdrv & _). rewrite Hdrv.
  fold bj.
  assert (to_ulong (jiffies s + bj) = jiffies s + bj) as ->.
  { apply to_ulong_small. unfold BITS_PER_LONG in *.
    change (2 ^ (64 - 1)) with 9223372036854775808 in Hwin.
    change (2 ^ 64) with 18446744073709551616. lia. }
  set (due := jiffies s + bj).
  assert (∀ b, negb (due <=? t) = b → bool_decide (t < due) = b) as Hdec.
  { intros b <-. destruct (Z.leb_spec due t).
    - by rewrite bool_decide_eq_false_2 by lia.
    - by rewrite bool_decide_eq_true_2 by lia. }
  symmetry. apply Hdec.
  destruct (powerhal_unboost (drv s)); cbn;
    by rewrite test_set_bit_same by done.
Qed.

(** A max-boost request that arrives while one is running never shortens
    it: max-boost is set until the later of the two deadlines.  (Deadlines
    in the lower half of the range, where jiffies compare as numbers.) *)
Lemma kick_max_never_truncates (s : sys) (duration_ms t due : Z) :
  screen_off s = false →
  timers_match (drv s) →
  powerhal_max_unboost (drv s) = Some due →
  0 ≤ due < 2 ^ (BITS_PER_LONG - 1) →
  0 ≤ jiffies s + msecs_to_jiffies K duration_ms < 2 ^ (BITS_PER_LONG - 1) →
  max_boosted (run K P [KickMax duration_ms; AdvanceTo t] s)
  = bool_decide
      (t < Z.max due (jiffies s + msecs_to_jiffies K duration_ms)).
Proof.
  intros Hoff (_ & Hbit & Hdue) Htimer Hwin Hnew.
  rewrite Htimer in Hbit. specialize (Hdue due Htimer). subst due.
  change (run K P [KickMax duration_ms; AdvanceTo t] s)
    with (apply_event K P (__powerhal_boost_kick_max K s duration_ms)
            (AdvanceTo t)).
  destruct (advance_boost_bits (__powerhal_boost_kick_max K s duration_ms) t)
    as (_ & -> & _).
  destruct (kick_max_sequential K s duration_ms Hoff Hwin Hnew)
    as (_ & Harm & Hskip).
  set (new := jiffies s + msecs_to_jiffies K duration_ms) in *.
  destruct (decide (new < expires s)) as [Hlt | Hge].
  - rewrite (Hskip Hlt), Hbit, Htimer. cbn.
    destruct (Z.leb_spec (expires s) t).
    + by rewrite bool_decide_eq_false_2 by lia.
    + by rewrite bool_decide_eq_true_2 by lia.
  - destruct Harm as [-> ->]; [lia |]. cbn.
    destruct (Z.leb_spec new t).
    + by rewrite bool_decide_eq_false_2 by lia.
    + by rewrite bool_decide_eq_true_2 by lia.
Qed.

(** One event keeps bits and timers together. *)
Lemma apply_event_timers_match (s : sys) (ev : event) :
  timers_match (drv s) → timers_match (drv (apply_event K P s ev)).
Proof.
  unfold timers_match. intros (Hb & Hm & Hdue).
  assert (timers_match (drv (__powerhal_boost_kick K P s))) as Hkick.
  { unfold timers_match, __powerhal_boost_kick.
    destruct (screen_off s); [done |].
    destruct (powerhal_boost_duration P =? 0); [done |].
    unfold mod_delayed_work. cbn.
    destruct (negb _); cbn; (split_and!;
      [by rewrite test_set_bit_same by done
      | by rewrite test_set_bit_other by done
      | done]). }
  destruct ev as [|duration_ms|type code value|action blank|policy|t].
  - exact Hkick.
  - cbn. unfold powerhal_boost_kick_max, __powerhal_boost_kick_max.
    destruct (screen_off s); [done |].
    destruct (time_after _ _); [done |].
    unfold mod_delayed_work. cbn.
    destruct (negb _); cbn; (split_and!;
      [by rewrite test_set_bit_other by done
      | by rewrite test_set_bit_same by done
      | by intros due [= <-]]).
  - exact Hkick.
  - cbn. unfold fb_notifier_cb.
    destruct (negb _); [done |].
    destruct (blank =? FB_BLANK_UNBLANK K); cbn;
      rewrite ?test_clear_bit_other, ?test_set_bit_other by done; done.
  - cbn. unfold cpu_notifier_cb. rewrite Z.eqb_refl. cbn.
    destruct (screen_off s); [done |].
    destruct (test_bit POWERHAL_MAX_BOOST (state (drv s))) eqn:Hmax; cbn;
      destruct (test_bit POWERHAL_BOOST (state (drv s))) eqn:Hboost; cbn;
      rewrite Hmax; done.
  - cbn. unfold run_max_unboost, run_unboost.
    destruct (powerhal_unboost (drv s)) as [due|] eqn:Hu;
      [destruct (due <=? t) |]; cbn;
      (destruct (powerhal_max_unboost (drv s)) as [due'|] eqn:Hmu;
        [destruct (due' <=? t) |]); cbn; rewrite ?Hu, ?Hmu;
      clear_bits; split_and!; try done; by rewrite ?Hb, ?Hm.
Qed.

(** Every timeline keeps bits and timers together; so a boost bit that is
    set always has a pending timer that will clear it, and the max-unboost
    work is always due at the deadline. *)
Lemma run_timers_match (evs : list event) (s : sys) :
  timers_match (drv s) →
  timers_match (drv (run K P evs s))
  ∧ (boosted (run K P evs s) = true →
       is_Some (powerhal_unboost (drv (run K P evs s))))
  ∧ (max_boosted (run K P evs s) = true →
       powerhal_max_unboost (drv (run K P evs s))
       = Some (expires (run K P evs s))).
Proof.
  intros Hs.
  assert (timers_match (drv (run K P evs s))) as Hinv.
  { revert s Hs. induction evs as [|ev evs IH]; intros s Hs; [done |].
    apply IH. by apply apply_event_timers_match. }
  split; [done |]. destruct Hinv as (Hb & Hm & Hdue).
  split.
  - rewrite Hb. by intros ?%bool_decide_eq_true.
  - rewrite Hm. intros [due Hsome]%bool_decide_eq_true.
    by rewrite Hsome, (Hdue due Hsome).
Qed.

End MoreTimeline.

(** ** Racing callers of kick_max *)

Section Race.
Import PowerHal.
Context (K : kernel).

Local Abbreviation screen_off s := (test_bit SCREEN_OFF (state (drv s))).
Local Abbreviation max_boosted s :=
  (test_bit POWERHAL_MAX_BOOST (state (drv s))).
Local Abbreviation expires s := (powerhal_max_boost_expires (drv s)).

Ltac take_step a :=
  eapply rtc_l;
    [ apply (sched_step_sound K _ _ a); cbn;
      repeat match goal with
             | H : test_bit _ _ = _ |- _ => rewrite H
             | H : time_after _ _ = _ |- _ => rewrite H
             | H : (_ =? _) = _ |- _ => rewrite H
             | H : powerhal_max_unboost _ = _ |- _ => rewrite H
             end;
      rewrite ?Z.eqb_refl; cbn; reflexivity
    | cbn ].

(** Two callers that enter together can leave the timer short of the
    deadline: the deadline ends at the later of the two proposals, the
    timer at the earlier one, because the caller with the shorter duration
    armed the timer last.  Max-boost then ends before the deadline that
    later requests are compared with. *)
Lemma kick_max_race_truncates_timer (s : sys) (long_ms short_ms : Z) :
  let new_long := to_ulong (jiffies s + msecs_to_jiffies K long_ms) in
  let new_short := to_ulong (jiffies s + msecs_to_jiffies K short_ms) in
  screen_off s = false →
  powerhal_max_unboost (drv s) = None →
  time_after (expires s) new_short = false →
  time_after (expires s) new_long = false →
  time_after new_short new_long = false →
  new_short ≠ expires s →
  ∃ s',
    rtc (step K) (s, [])
      (s', [ {| km_duration_ms := long_ms; km_at := KmReturn |};
             {| km_duration_ms := short_ms; km_at := KmReturn |} ])
    ∧ expires s' = new_long
    ∧ powerhal_max_unboost (drv s') = Some new_short
    ∧ max_boosted s' = true.
Proof.
  intros new_long new_short Hoff Hidle Hshort Hlong Horder Hne.
  apply Z.eqb_neq in Hne.
  eexists. split.
  - take_step (SCall long_ms). take_step (SCall short_ms).
    take_step (SAccess 1). take_step (SAccess 1). take_step (SAccess 1).
    take_step (SAccess 0). take_step (SAccess 0). take_step (SAccess 0).
    fold new_long new_short.
    take_step (SAccess 1). take_step (SAccess 0).
    take_step (SAccess 0). take_step (SAccess 0).
    fold new_long. take_step (SAccess 0).
    take_step (SAccess 0). take_step (SAccess 0). take_step (SAccess 0).
    take_step (SAccess 1). take_step (SAccess 1).
    fold new_long new_short. apply rtc_refl.
  - cbn. split_and!; [done | done |].
    rewrite test_set_bit_same by done. done.
Qed.

End Race.

(** ** More on the coordinator thread *)

Section MoreCoordinator.

Local Arguments changes : simpl never.

Lemma changes_cons (old x : Z) (xs : list Z) :
  changes old (x :: xs)
  = ((if bool_decide (old = x) then 0 else 1) + changes x xs)%nat.
Proof.
  unfold changes. cbn [zip zip_with]. rewrite filter_cons. cbn.
  destruct (decide (old ≠ x)) as [Hne | Heq].
  - by rewrite bool_decide_eq_false_2.
  - rewrite bool_decide_eq_true_2; [done |].
    by destruct (decide (old = x)).
Qed.

(** As long as nobody asks it to stop, the thread never returns; it issues
    one recompute per change of the state word it observes, none for a
    wake-up that finds the word unchanged, and the value it has last acted
    on is the last one it saw. *)
Lemma coordinator_one_recompute_per_change (obs : list observation)
    (old_state : Z) (updates : nat) :
  Forall (λ o, obs_stop o = false) obs →
  cpu_boost_thread_loop obs old_state updates
  = ((updates + changes old_state (obs_state <$> obs))%nat,
     default old_state (last (obs_state <$> obs)),
     Waiting).
Proof.
  intros Hstop. revert old_state updates.
  induction Hstop as [|o obs Ho _ IH]; intros old_state updates.
  - cbn. by rewrite Nat.add_0_r.
  - rewrite fmap_cons, changes_cons. cbn [cpu_boost_thread_loop].
    unfold wait_condition. rewrite Ho.
    assert (default old_state (last (obs_state o :: (obs_state <$> obs)))
            = default (obs_state o) (last (obs_state <$> obs))) as ->.
    { rewrite last_cons. by destruct (last _). }
    destruct (Z.eqb_spec (obs_state o) old_state) as [Heq | Hne]; cbn.
    + rewrite bool_decide_eq_true_2 by done. rewrite IH, Heq. done.
    + rewrite bool_decide_eq_false_2 by done. rewrite IH.
      do 2 f_equal. lia.
Qed.

(** In general the thread returns only after it has seen the stop signal
    raised, it returns 0, and it never issues more recomputes than the
    state word changed. *)
Lemma coordinator_bounds (obs : list observation) (old_state : Z)
    (updates : nat) :
  let '(updates', _, outcome) :=
    cpu_boost_thread_loop obs old_state updates in
  (updates ≤ updates' ≤ updates + changes old_state (obs_state <$> obs))%nat
  ∧ ∀ ret, outcome = Returned ret →
      ret = 0 ∧ Exists (λ o, obs_stop o = true) obs.
Proof.
  revert old_state updates.
  induction obs as [|o obs IH]; intros old_state updates.
  - cbn. split; [lia | done].
  - rewrite fmap_cons, changes_cons. cbn [cpu_boost_thread_loop].
    unfold wait_condition.
    destruct (Z.eqb_spec (obs_state o) old_state) as [Heq | Hne]; cbn.
    + rewrite bool_decide_eq_true_2 by done.
      destruct (obs_stop o) eqn:Hstop.
      * split; [lia |]. intros ret [= <-]. split; [done |].
        by apply Exists_cons_hd.
      * specialize (IH old_state updates). rewrite Heq.
        destruct (cpu_boost_thread_loop obs old_state updates)
          as [[updates' final] outcome].
        destruct IH as [Hbound Hret]. split; [lia |].
        intros ret Hout. destruct (Hret ret Hout) as [-> Hex].
        split; [done | by apply Exists_cons_tl].
    + rewrite bool_decide_eq_false_2 by done.
      specialize (IH (obs_state o) (S updates)).
      destruct (cpu_boost_thread_loop obs (obs_state o) (S updates))
        as [[updates' final] outcome].
      destruct IH as [Hbound Hret]. split; [lia |].
      intros ret Hout. destruct (Hret ret Hout) as [-> Hex].
      split; [done | by apply Exists_cons_tl].
Qed.

End MoreCoordinator.

(** ** More on initialisation and on connecting devices *)

Section MoreInit.

(** Both variants return the same code; it is 0 exactly when all three
    registrations and the thread start succeeded, and then everything is in
    effect; cpu_input_boost.c leaves nothing in effect otherwise.  (An
    [IS_ERR] pointer never carries the error 0.) *)
Lemma init_succeeds_iff (e : init_env) :
  kthread_run_err e ≠ Some 0 →
  let base := InputBoost.cpu_input_boost_init e in
  let rich := PowerHal.cpu_input_boost_init e in
  rich.1 = base.1
  ∧ (base.1 = 0 ↔
       cpufreq_register_notifier_ret e = 0
       ∧ input_register_handler_ret e = 0
       ∧ fb_register_client_ret e = 0
       ∧ kthread_run_err e = None)
  ∧ (base.1 = 0 →
       in_effect base.2
       = [BoostThread; FbNotifier; InputHandler; CpuNotifier]
       ∧ in_effect rich.2
         = [BoostThread; FbNotifier; InputHandler; CpuNotifier;
            PmQosRequest])
  ∧ (base.1 ≠ 0 → in_effect base.2 = []).
Proof.
  destruct e as [r1 r2 r3 kt].
  unfold InputBoost.cpu_input_boost_init, PowerHal.cpu_input_boost_init.
  cbn. intros Hkt.
  destruct (Z.eqb_spec r1 0) as [-> | H1]; cbn;
    [| split_and!; [done | (intuition (first [lia | congruence])) | done | by vm_compute]].
  destruct (Z.eqb_spec r2 0) as [-> | H2]; cbn;
    [| split_and!; [done | (intuition (first [lia | congruence])) | done | by vm_compute]].
  destruct (Z.eqb_spec r3 0) as [-> | H3]; cbn;
    [| split_and!; [done | (intuition (first [lia | congruence])) | done | by vm_compute]].
  destruct kt as [err|]; cbn.
  - assert (err ≠ 0) by congruence.
    split_and!; [done | (intuition (first [lia | congruence])) | done | by vm_compute].
  - split_and!; [done | done | by vm_compute | done].
Qed.

(** Connecting a device: the code is 0 exactly when the handle ends up
    allocated, registered and open; on every failure the handle is freed
    after having been unregistered where it was registered, in an order the
    input core accepts, and a failed allocation does nothing at all and
    reports -ENOMEM. *)
Lemma connect_all_or_nothing (e : connect_env) :
  ENOMEM e ≠ 0 →
  let '(ret, ops) := cpu_input_boost_input_connect e in
  handle_after ops no_handle
  = Some (if ret =? 0
          then {| allocated := true; registered_with_core := true;
                  opened := true |}
          else no_handle)
  ∧ (ret = 0 ↔
       kzalloc_fails e = false
       ∧ input_register_handle_ret e = 0
       ∧ input_open_device_ret e = 0)
  ∧ (kzalloc_fails e = true → ret = - ENOMEM e ∧ ops = []).
Proof.
  destruct e as [fails r1 r2 enomem]. unfold cpu_input_boost_input_connect.
  cbn. intros Hno.
  destruct fails; cbn.
  { destruct (Z.eqb_spec (- enomem) 0) as [Heq | _]; [lia |].
    split_and!; [done | | done]. split; [lia | (intuition (first [lia | congruence]))]. }
  destruct (Z.eqb_spec r1 0) as [-> | H1]; cbn.
  2: { destruct (Z.eqb_spec r1 0) as [Heq | _]; [done |].
       split_and!; [done | (intuition (first [lia | congruence])) | done]. }
  destruct (Z.eqb_spec r2 0) as [-> | H2]; cbn.
  2: { destruct (Z.eqb_spec r2 0) as [Heq | _]; [done |].
       split_and!; [done | (intuition (first [lia | congruence])) | done]. }
  done.
Qed.

(** Disconnecting undoes a successful connect step by step, last first,
    and leaves no handle behind. *)
Lemma connect_disconnect (e : connect_env) :
  (cpu_input_boost_input_connect e).1 = 0 →
  ENOMEM e ≠ 0 →
  (cpu_input_boost_input_connect e).2 = [HAlloc; HRegister; HOpen]
  ∧ handle_after
      ((cpu_input_boost_input_connect e).2
       ++ cpu_input_boost_input_disconnect) no_handle
    = Some no_handle.
Proof.
  destruct e as [fails r1 r2 enomem]. unfold cpu_input_boost_input_connect.
  cbn. intros Hret Hno. revert Hret.
  destruct fails; cbn; [lia |].
  destruct (Z.eqb_spec r1 0) as [-> | H1]; cbn; [| done].
  destruct (Z.eqb_spec r2 0) as [-> | H2]; cbn; [| done].
  done.
Qed.

End MoreInit.

(** ** The properties at work on the concrete target *)

Section Instances.
Import PowerHal.

Local Abbreviation screen_off s := (test_bit SCREEN_OFF (state (drv s))).
Local Abbreviation boosted s := (test_bit POWERHAL_BOOST (state (drv s))).
Local Abbreviation max_boosted s :=
  (test_bit POWERHAL_MAX_BOOST (state (drv s))).

Lemma kicks_ignored_after_blank_witness :
  powerhal_boost_kick target tunables
    (fb_notifier_cb target boot 16 FB_BLANK_POWERDOWN).2
  = (fb_notifier_cb target boot 16 FB_BLANK_POWERDOWN).2
  ∧ powerhal_boost_kick_max target
      (fb_notifier_cb target boot 16 FB_BLANK_POWERDOWN).2 1000
    = (fb_notifier_cb target boot 16 FB_BLANK_POWERDOWN).2.
Proof.
  destruct (kicks_ignored_after_blank target tunables boot
              FB_BLANK_POWERDOWN 1000) as (Hkick & Hmax & _).
  - simpl. unfold FB_BLANK_POWERDOWN. lia.
  - split; [exact Hkick | exact Hmax].
Defined.

Lemma blank_unblank_round_trip_witness :
  state (drv (run target tunables
                [Kick; FbEvent 16 FB_BLANK_POWERDOWN; FbEvent 16 0] boot))
  = state (drv (run target tunables [Kick] boot))
  ∧ boost_waitq
      (drv (run target tunables
              [Kick; FbEvent 16 FB_BLANK_POWERDOWN; FbEvent 16 0] boot))
    = 2%nat.
Proof.
  destruct (blank_unblank_round_trip target
              (run target tunables [Kick] boot) FB_BLANK_POWERDOWN)
    as (Hstate & Hwake & _).
  - simpl. unfold FB_BLANK_POWERDOWN. lia.
  - vm_compute. reflexivity.
  - split; [exact Hstate | exact Hwake].
Defined.

Lemma kick_holds_for_duration_witness :
  boosted
    (run target tunables [Kick; AdvanceTo 700]
       (run target tunables [Kick; AdvanceTo 300] boot))
  = true
  ∧ boosted
      (run target tunables [Kick; AdvanceTo 800]
         (run target tunables [Kick; AdvanceTo 300] boot))
    = false.
Proof.
  assert (timers_match
            (drv (run target tunables [Kick; AdvanceTo 300] boot))) as Hinv.
  { unfold timers_match. vm_compute.
    split; [reflexivity | split; [reflexivity |]].
    intros due Hdue. discriminate Hdue. }
  split.
  - rewrite kick_holds_for_duration.
    + vm_compute. reflexivity.
    + vm_compute. reflexivity.
    + simpl. lia.
    + exact Hinv.
    + vm_compute. discriminate.
    + vm_compute. discriminate.
    + vm_compute. reflexivity.
    + vm_compute. discriminate.
  - rewrite kick_holds_for_duration.
    + vm_compute. reflexivity.
    + vm_compute. reflexivity.
    + simpl. lia.
    + exact Hinv.
    + vm_compute. discriminate.
    + vm_compute. discriminate.
    + vm_compute. reflexivity.
    + vm_compute. discriminate.
Defined.

Lemma kick_max_never_truncates_witness :
  max_boosted
    (run target tunables [KickMax 200; AdvanceTo 999]
       (run target tunables [KickMax 1000; AdvanceTo 100] boot))
  = true.
Proof.
  rewrite (kick_max_never_truncates target tunables _ 200 999 1000).
  - vm_compute. reflexivity.
  - vm_compute. reflexivity.
  - unfold timers_match. vm_compute.
    split; [reflexivity | split; [reflexivity |]].
    intros due Hdue. injection Hdue as <-. reflexivity.
  - vm_compute. reflexivity.
  - vm_compute. split; [discriminate | reflexivity].
  - vm_compute. split; [discriminate | reflexivity].
Defined.

Lemma run_timers_match_witness :
  let s := run target tunables
             [Kick; KickMax 1000; AdvanceTo 100;
              FbEvent 16 FB_BLANK_POWERDOWN; AdvanceTo 600] boot in
  boosted s = false ∧ max_boosted s = true
  ∧ powerhal_max_unboost (drv s) = Some (powerhal_max_boost_expires (drv s)).
Proof.
  intros s.
  assert (timers_match (drv boot)) as Hboot.
  { unfold timers_match. vm_compute.
    split; [reflexivity | split; [reflexivity | discriminate]]. }
  destruct (run_timers_match target tunables
              [Kick; KickMax 1000; AdvanceTo 100;
               FbEvent 16 FB_BLANK_POWERDOWN; AdvanceTo 600] boot Hboot)
    as (_ & _ & Hmax).
  split; [vm_compute; reflexivity |].
  split; [vm_compute; reflexivity |].
  apply Hmax. vm_compute. reflexivity.
Defined.

Lemma kick_max_race_truncates_timer_witness :
  ∃ s',
    rtc (step target) (boot, [])
      (s', [ {| km_duration_ms := 1000; km_at := KmReturn |};
             {| km_duration_ms := 200; km_at := KmReturn |} ])
    ∧ powerhal_max_boost_expires (drv s') = 1000
    ∧ powerhal_max_unboost (drv s') = Some 200
    ∧ max_boosted s' = true.
Proof.
  apply (kick_max_race_truncates_timer target boot 1000 200).
  - vm_compute. reflexivity.
  - vm_compute. reflexivity.
  - vm_compute. reflexivity.
  - vm_compute. reflexivity.
  - vm_compute. reflexivity.
  - vm_compute. discriminate.
Defined.

Lemma unboost_workers_witness :
  test_bit SCREEN_OFF
    (state (powerhal_unboost_worker
              (drv (run target tunables
                      [Kick; FbEvent 16 FB_BLANK_POWERDOWN] boot))))
  = true.
Proof.
  destruct (unboost_workers
              (drv (run target tunables
                      [Kick; FbEvent 16 FB_BLANK_POWERDOWN] boot)))
    as ((_ & Hother & _) & _).
  rewrite Hother.
  - vm_compute. reflexivity.
  - vm_compute. discriminate.
Defined.

Lemma floor_defined_iff_lp_witness :
  cpuinfo_min_freq little_policy ≤ 768000
  ∧ boost_min_freq_lp tunables ≤ 768000.
Proof.
  destruct (floor_defined_iff_lp target tunables boot little_policy)
    as [_ Hfloor].
  apply (Hfloor 768000). vm_compute. reflexivity.
Defined.

Lemma variants_agree_on_floor_witness :
  InputBoost.cpu_notifier_cb target tunables base_boot 0 little_policy
  = (1, set_min (Vint 768000) little_policy).
Proof.
  rewrite (variants_agree_on_floor target tunables base_boot boot).
  - vm_compute. reflexivity.
  - vm_compute. reflexivity.
Defined.

Lemma coordinator_one_recompute_per_change_witness :
  cpu_boost_thread_loop
    (map (λ w, {| obs_state := w; obs_stop := false |}) [2; 2; 6; 6; 4; 0])
    0 0%nat
  = (4%nat, 0, Waiting).
Proof.
  rewrite coordinator_one_recompute_per_change.
  - vm_compute. reflexivity.
  - simpl. repeat constructor.
Defined.

Lemma coordinator_bounds_witness :
  Exists (λ o, obs_stop o = true)
    [ {| obs_state := 2; obs_stop := false |};
      {| obs_state := 2; obs_stop := true |} ].
Proof.
  pose proof (coordinator_bounds
                [ {| obs_state := 2; obs_stop := false |};
                  {| obs_state := 2; obs_stop := true |} ] 0 0%nat) as H.
  simpl in H. destruct H as [_ Hret].
  destruct (Hret 0 eq_refl) as [_ Hex]. exact Hex.
Defined.

Lemma rich_init_unwinds_witness :
  in_effect
    (PowerHal.cpu_input_boost_init
       {| cpufreq_register_notifier_ret := 0;
          input_register_handler_ret := 0;
          fb_register_client_ret := - EINVAL;
          kthread_run_err := None |}).2
  = [].
Proof.
  destruct (rich_init_unwinds
              {| cpufreq_register_notifier_ret := 0;
                 input_register_handler_ret := 0;
                 fb_register_client_ret := - EINVAL;
                 kthread_run_err := None |} eq_refl) as [[Hnone _] | [Hall _]].
  - exact Hnone.
  - vm_compute in Hall. discriminate.
Defined.

Lemma init_succeeds_iff_witness :
  (PowerHal.cpu_input_boost_init
     {| cpufreq_register_notifier_ret := 0;
        input_register_handler_ret := 0;
        fb_register_client_ret := 0;
        kthread_run_err := Some (-12) |}).1
  = -12.
Proof.
  destruct (init_succeeds_iff
              {| cpufreq_register_notifier_ret := 0;
                 input_register_handler_ret := 0;
                 fb_register_client_ret := 0;
                 kthread_run_err := Some (-12) |}) as (Hsame & _).
  - simpl. discriminate.
  - rewrite Hsame. vm_compute. reflexivity.
Defined.

Lemma connect_all_or_nothing_witness :
  handle_after
    (cpu_input_boost_input_connect
       {| kzalloc_fails := false; input_register_handle_ret := 0;
          input_open_device_ret := -5; ENOMEM := 12 |}).2 no_handle
  = Some no_handle.
Proof.
  pose proof (connect_all_or_nothing
                {| kzalloc_fails := false; input_register_handle_ret := 0;
                   input_open_device_ret := -5; ENOMEM := 12 |}) as H.
  simpl in H. destruct H as (Hafter & _).
  - lia.
  - exact Hafter.
Defined.

Lemma connect_disconnect_witness :
  handle_after
    ((cpu_input_boost_input_connect
        {| kzalloc_fails := false; input_register_handle_ret := 0;
           input_open_device_ret := 0; ENOMEM := 12 |}).2
     ++ cpu_input_boost_input_disconnect) no_handle
  = Some no_handle.
Proof.
  apply connect_disconnect.
  - vm_compute. reflexivity.
  - simpl. lia.
Defined.

End Instances.

(** ** The two kinds of boost side by side *)

Lemma set_bit_comm (nr nr' w : Z) :
  set_bit nr (set_bit nr' w) = set_bit nr' (set_bit nr w).
Proof.
  unfold set_bit, Z.setbit.
  by rewrite <- !Z.lor_assoc, (Z.lor_comm (Z.shiftl 1 nr')).
Qed.

Section BothBoosts.
Import PowerHal.
Context (K : kernel) (P : params).

Local Abbreviation screen_off s := (test_bit SCREEN_OFF (state (drv s))).

(** Asking for the same max boost twice at the same instant is asking
    once: the second call swaps the deadline for itself, finds the bit set
    and the timer pending at the same due time, and wakes nobody. *)
Lemma kick_max_idempotent (s : sys) (duration_ms : Z) :
  __powerhal_boost_kick_max K (__powerhal_boost_kick_max K s duration_ms)
    duration_ms
  = __powerhal_boost_kick_max K s duration_ms.
Proof.
  set (new := to_ulong (jiffies s + msecs_to_jiffies K duration_ms)).
  destruct (screen_off s) eqn:Hoff.
  { assert (__powerhal_boost_kick_max K s duration_ms = s) as Hnop
      by (unfold __powerhal_boost_kick_max; by rewrite Hoff).
    by rewrite !Hnop. }
  destruct (time_after (powerhal_max_boost_expires (drv s)) new) eqn:Hafter.
  { assert (__powerhal_boost_kick_max K s duration_ms = s) as Hnop
      by (unfold __powerhal_boost_kick_max; fold new;
          by rewrite Hoff, Hafter).
    by rewrite !Hnop. }
  assert (__powerhal_boost_kick_max K s duration_ms
          = with_drv
              ((if powerhal_max_unboost (drv s) is Some _ then id
                else wake_up)
                 (with_max_unboost (Some new)
                    (with_state
                       (set_bit POWERHAL_MAX_BOOST (state (drv s)))
                       (with_expires new (drv s))))) s) as Hfirst.
  { unfold __powerhal_boost_kick_max. fold new. rewrite Hoff, Hafter.
    unfold mod_delayed_work. fold new. cbn.
    by destruct (powerhal_max_unboost (drv s)). }
  rewrite Hfirst. unfold __powerhal_boost_kick_max at 1.
  destruct (powerhal_max_unboost (drv s)); cbn; fold new;
    rewrite test_set_bit_other by done; rewrite Hoff, time_after_irrefl;
    cbn; by rewrite set_bit_idem.
Qed.

(** An input boost and a max boost do not get in each other's way: a kick
    and a kick_max issued at the same instant have the same effect in
    either order. *)
Lemma kick_and_kick_max_commute (s : sys) (duration_ms : Z) :
  __powerhal_boost_kick K P (__powerhal_boost_kick_max K s duration_ms)
  = __powerhal_boost_kick_max K (__powerhal_boost_kick K P s) duration_ms.
Proof.
  destruct s as [[u mu wq e st q] j h].
  unfold __powerhal_boost_kick, __powerhal_boost_kick_max, mod_delayed_work.
  cbn.
  destruct (test_bit SCREEN_OFF st) eqn:Hoff; cbn; [by rewrite Hoff |].
  destruct (powerhal_boost_duration P =? 0) eqn:Hdur;
    destruct (time_after e _) eqn:Hafter;
    destruct u, mu; cbn;
    rewrite ?test_set_bit_other by done;
    rewrite ?Hoff, ?Hdur, ?Hafter; cbn;
    rewrite ?Hoff, ?Hdur, ?Hafter; cbn;
    try done; by rewrite set_bit_comm.
Qed.

End BothBoosts.
